(** * ShuffleFeatures: selection of features by performance drift

    A shallow embedding of [feature_engine/selection/shuffle_features.py].

    The class [ShuffleFeatures] trains an estimator, then shuffles one
    feature at a time, measures the performance again and records the
    difference (the drift); [transform] drops the features whose drift lies
    on the wrong side of a threshold.

    Python objects live in a store: dataframes are heap objects reached
    through references, the selector ([self]) and numpy's global random
    state are part of the world that every method call threads.  An
    exception leaves the world as it was when it was raised. *)

From Stdlib Require Import ZArith Permutation Lia.
From Stdlib Require Import Floats.PrimFloat Floats.SpecFloat Floats.FloatOps Floats.FloatAxioms.
From stdpp Require Import gmap strings list.

(** ** Exceptions and results *)

Inductive exn :=
  | TypeError (msg : string)
  | ValueError (msg : string)
  | KeyError (msg : string)
  | IndexError (msg : string)
  | AttributeError (msg : string)
  | NotFittedError (msg : string).

Inductive res (A : Type) :=
  | Ok (a : A)
  | Raise (e : exn).
Arguments Ok {A} a.
Arguments Raise {A} e.

Definition is_Ok {A} (r : res A) : bool :=
  match r with Ok _ => true | Raise _ => false end.

(** ** Python values that reach the constructor *)

Inductive pyval :=
  | PyNone
  | PyBool (b : bool)
  | PyInt (n : Z)
  | PyFloat (x : float)
  | PyStr (s : string).

(** [isinstance(v, bool)] *)
Definition isinstance_bool (v : pyval) : bool :=
  match v with PyBool _ => true | _ => false end.

(** The [features_to_shuffle] argument: [None], one name, or a list. *)
Inductive variables :=
  | NoVariables
  | OneVariable (v : string)
  | VariableList (l : list string).

(** ** pandas: series and dataframes

    Cells are floats (a missing cell is [nan]); row labels are integers. *)

Record Series := {
  s_index : list Z;
  s_values : list float }.

Record DataFrame := {
  index : list Z;
  columns : list (string * list float) }.

Definition column_names (df : DataFrame) : list string := (columns df).*1.

Definition RangeIndex (n : nat) : list Z := Z.of_nat <$> seq 0 n.

(** [df[name]]: the column as a series carrying the frame's row labels. *)
Fixpoint assoc_lookup {A} (name : string) (cols : list (string * A)) : option A :=
  match cols with
  | [] => None
  | (c, v) :: rest => if String.eqb c name then Some v else assoc_lookup name rest
  end.

Definition getitem (df : DataFrame) (name : string) : res Series :=
  match assoc_lookup name (columns df) with
  | Some vals => Ok {| s_index := index df; s_values := vals |}
  | None => Raise (KeyError name)
  end.

(** [series.take(locs)]: the rows at the given positions, with their labels. *)
Definition Series_take (s : Series) (locs : list nat) : Series :=
  {| s_index := (fun k => default 0%Z (s_index s !! k)) <$> locs;
     s_values := (fun k => default nan (s_values s !! k)) <$> locs |}.

(** [series.reset_index(drop=True)] *)
Definition reset_index_drop (s : Series) : Series :=
  {| s_index := RangeIndex (length (s_values s)); s_values := s_values s |}.

(** [series.loc[l]] for alignment: the value carried by label [l], if any.
    The series aligned below always carries a [RangeIndex], whose labels
    are distinct. *)
Fixpoint Series_at (labels : list Z) (vals : list float) (l : Z) : option float :=
  match labels, vals with
  | l' :: labels', v :: vals' => if Z.eqb l' l then Some v else Series_at labels' vals' l
  | _, _ => None
  end.

(** [series.reindex(idx)]: the values aligned on the row labels [idx]; a
    label the series does not carry gets [nan]. *)
Definition reindex (s : Series) (idx : list Z) : list float :=
  (fun l => default nan (Series_at (s_index s) (s_values s) l)) <$> idx.

(** Assignment in an insertion-ordered mapping (the columns of a frame, a
    Python dictionary): the entry is replaced in place, or appended. *)
Fixpoint assoc_set {A} (k : string) (v : A) (d : list (string * A))
    : list (string * A) :=
  match d with
  | [] => [(k, v)]
  | (k', v') :: rest =>
      if String.eqb k' k then (k', v) :: rest
      else (k', v') :: assoc_set k v rest
  end.

(** [df[name] = series]: pandas aligns the series on the frame's row
    labels before it stores the values. *)
Definition setitem (df : DataFrame) (name : string) (s : Series) : DataFrame :=
  {| index := index df;
     columns := assoc_set name (reindex s (index df)) (columns df) |}.

Definition name_in (names : list string) (c : string) : bool :=
  existsb (String.eqb c) names.

(** [df.drop(columns=labels)]: a new frame; a label that is not a column
    raises [KeyError]. *)
Definition drop (df : DataFrame) (labels : list string) : res DataFrame :=
  match List.find (fun c => negb (name_in (column_names df) c)) labels with
  | Some c => Raise (KeyError c)
  | None =>
      Ok {| index := index df;
            columns := List.filter (fun cv => negb (name_in labels cv.1)) (columns df) |}
  end.

(** ** numpy: the random state and the permutation it draws

    [random_interval g m] is numpy's bounded draw: a number in [0..m] and
    the next state. *)

Class RandomState (G : Type) := {
  random_interval : G -> nat -> nat * G;
  random_interval_le : forall g m, (random_interval g m).1 <= m }.

(** [buf[i], buf[j] = buf[j], buf[i]] *)
Definition swap (buf : list nat) (i j : nat) : list nat :=
  match buf !! i, buf !! j with
  | Some a, Some b => <[i := b]> (<[j := a]> buf)
  | _, _ => buf
  end.

(** numpy's shuffle: [for i in reversed(range(1, n)): j = interval(i); swap]. *)
Fixpoint shuffle_from {G} `{!RandomState G} (i : nat) (buf : list nat) (g : G)
    : list nat * G :=
  match i with
  | O => (buf, g)
  | S i' =>
      let '(j, g') := random_interval g i in
      shuffle_from i' (swap buf i j) g'
  end.

(** [rs.permutation(n)] *)
Definition permutation {G} `{!RandomState G} (n : nat) (g : G) : list nat * G :=
  shuffle_from (n - 1) (seq 0 n) g.

(** [series.sample(frac=1)]: all the rows, in a random order. *)
Definition sample_frac1 {G} `{!RandomState G} (s : Series) (g : G) : Series * G :=
  let '(locs, g') := permutation (length (s_values s)) g in
  (Series_take s locs, g').

(** numpy: a two-dimensional array, and the slice [a[:, k]]. *)
Record ndarray2 := {
  shape1 : nat;
  rows : list (list float) }.

Definition slice_column (a : ndarray2) (k : nat) : res (list float) :=
  if Nat.ltb k (shape1 a) then Ok ((fun r => default nan (r !! k)) <$> rows a)
  else Raise (IndexError "index is out of bounds for axis 1"%string).

(** ** sklearn: estimators, trained models and metrics

    The estimator and the metrics are collaborators: an estimator is
    something that can be fitted (drawing from the random state), a trained
    model predicts, and any of these calls may raise. *)

Record Model := {
  predict : DataFrame -> res (list float);
  predict_proba : DataFrame -> res ndarray2 }.

Record Estimator (G : Type) := {
  est_fit : DataFrame -> list float -> G -> res Model * G }.
Arguments est_fit {G} _ _ _ _.

Class Sklearn (G : Type) := {
  RandomForestRegressor : Estimator G;
  RandomForestClassifier : Estimator G;
  mean_squared_error : list float -> list float -> res float;
  roc_auc_score : list float -> list float -> res float }.

(** ** The selector object *)

Record ShuffleFeatures (G : Type) := {
  features_to_shuffle : option (list string);
  estimator : option (Estimator G);
  scoring : string;
  threshold : float;
  regression : bool;
  cv : bool;
  features_performance_drifts_ : option (list (string * float)) }.
Arguments features_to_shuffle {G} _.
Arguments estimator {G} _.
Arguments scoring {G} _.
Arguments threshold {G} _.
Arguments regression {G} _.
Arguments cv {G} _.
Arguments features_performance_drifts_ {G} _.

(** Modelled from the spec: [_define_variables] of
    [feature_engine.variable_manipulation] is not part of the sources at
    hand.  The feature list is optional; a single name stands for the list
    that holds it. *)
Definition _define_variables (v : variables) : option (list string) :=
  match v with
  | NoVariables => None
  | OneVariable s => Some [s]
  | VariableList l => Some l
  end.

(** Modelled from the spec: [_find_all_variables] of
    [feature_engine.variable_manipulation] is not part of the sources at
    hand.  The feature list defaults to all columns if unspecified, and is
    resolved against the actual input columns; it fails if any named
    feature is absent. *)
Definition _find_all_variables (df : DataFrame) (v : option (list string))
    : res (list string) :=
  match v with
  | None | Some [] => Ok (column_names df)
  | Some names =>
      match List.find (fun c => negb (name_in (column_names df) c)) names with
      | Some c => Raise (KeyError c)
      | None => Ok names
      end
  end.

(** [ShuffleFeatures(regression, cv=3, threshold=0, features_to_shuffle=None,
    estimator=None, scoring="neg_mean_squared_error")]; an argument left at
    its default is [None] here. *)
Definition __init__ {G} (regression : pyval) (cv : option pyval)
    (threshold : option float) (features_to_shuffle : variables)
    (estimator : option (Estimator G)) (scoring : option string)
    : res (ShuffleFeatures G) :=
  let cv := default (PyInt 3) cv in
  let threshold := default 0%float threshold in
  let scoring := default "neg_mean_squared_error"%string scoring in
  match cv with
  | PyBool cv =>
      match regression with
      | PyBool regression =>
          Ok {| features_to_shuffle := _define_variables features_to_shuffle;
                estimator := estimator;
                scoring := scoring;
                threshold := threshold;
                regression := regression;
                cv := cv;
                features_performance_drifts_ := None |}
      | _ => Raise (ValueError "regression can only take True or False")
      end
  | _ => Raise (ValueError "cv can only take True or False")
  end.

Definition not_fitted : exn :=
  NotFittedError "This ShuffleFeatures instance is not fitted yet".

(** ** The world and its monad *)

Definition loc := positive.

Inductive object :=
  | ODataFrame (df : DataFrame)
  | OOther.

Record world (G : Type) := {
  self : ShuffleFeatures G;
  heap : gmap loc object;
  rng : G }.
Arguments Build_world {G} _ _ _.
Arguments self {G} _.
Arguments heap {G} _.
Arguments rng {G} _.

Definition M (G A : Type) : Type := world G -> res A * world G.

Definition ret {G A} (a : A) : M G A := fun w => (Ok a, w).

Definition raise {G A} (e : exn) : M G A := fun w => (Raise e, w).

Definition bind {G A B} (m : M G A) (k : A -> M G B) : M G B :=
  fun w =>
    match m w with
    | (Ok a, w') => k a w'
    | (Raise e, w') => (Raise e, w')
    end.

Notation "x <- m ;; k" := (bind m (fun x => k))
  (at level 100, m at next level, right associativity).
Notation "m >> k" := (bind m (fun _ => k))
  (at level 100, right associativity).

Definition lift {G A} (r : res A) : M G A := fun w => (r, w).

Definition get_self {G} : M G (ShuffleFeatures G) := fun w => (Ok (self w), w).

Definition set_self {G} (s : ShuffleFeatures G) : M G unit :=
  fun w => (Ok tt, {| self := s; heap := heap w; rng := rng w |}).

(** Draw from numpy's global random state. *)
Definition with_rng {G A} (f : G -> A * G) : M G A :=
  fun w => let '(a, g) := f (rng w) in
           (Ok a, {| self := self w; heap := heap w; rng := g |}).

(** A new object, at an address nothing lives at. *)
Definition alloc {G} (o : object) : M G loc :=
  fun w => let l := fresh (dom (heap w)) in
           (Ok l, {| self := self w; heap := <[l := o]> (heap w); rng := rng w |}).

(** The frame behind a reference. *)
Definition frame_of {G} (X : loc) : M G DataFrame :=
  fun w => match heap w !! X with
           | Some (ODataFrame df) => (Ok df, w)
           | _ => (Raise (TypeError "The data set should be a pandas dataframe"), w)
           end.

(** In-place update of the frame behind a reference. *)
Definition store {G} (X : loc) (df : DataFrame) : M G unit :=
  fun w => (Ok tt, {| self := self w; heap := <[X := ODataFrame df]> (heap w); rng := rng w |}).

Fixpoint for_each {G A} (l : list A) (body : A -> M G unit) : M G unit :=
  match l with
  | [] => ret tt
  | a :: l' => body a >> for_each l' body
  end.

Definition with_features {G} (s : ShuffleFeatures G) (l : list string) : ShuffleFeatures G :=
  {| features_to_shuffle := Some l;
     estimator := estimator s;
     scoring := scoring s;
     threshold := threshold s;
     regression := regression s;
     cv := cv s;
     features_performance_drifts_ := features_performance_drifts_ s |}.

Definition with_drifts {G} (s : ShuffleFeatures G) (d : list (string * float))
    : ShuffleFeatures G :=
  {| features_to_shuffle := features_to_shuffle s;
     estimator := estimator s;
     scoring := scoring s;
     threshold := threshold s;
     regression := regression s;
     cv := cv s;
     features_performance_drifts_ := Some d |}.

(** ** The methods of [ShuffleFeatures] *)

Section Methods.
Context {G : Type} `{!RandomState G} `{!Sklearn G}.

(** [X.copy()] *)
Definition copy (X : loc) : M G loc :=
  df <- frame_of X ;;
  alloc (ODataFrame df).

(** Modelled from the spec: [_is_dataframe] of
    [feature_engine.dataframe_checks] is not part of the sources at hand.
    It validates that [X] is tabular, fails with a type error otherwise, and
    hands back a copy of the frame for the method to work on. *)
Definition _is_dataframe (X : loc) : M G loc := copy X.

(** [estimator.fit(X, y)] *)
Definition call_fit (est : Estimator G) (X : loc) (y : list float) : M G Model :=
  df <- frame_of X ;;
  fun w => let '(r, g) := est_fit est df y (rng w) in
           (r, {| self := self w; heap := heap w; rng := g |}).

(** [model.predict(X)] and [model.predict_proba(X)[:, 1]] *)
Definition call_predict (model : Model) (X : loc) : M G (list float) :=
  df <- frame_of X ;;
  lift (predict model df).

Definition call_predict_proba_1 (model : Model) (X : loc) : M G (list float) :=
  df <- frame_of X ;;
  proba <- lift (predict_proba model df) ;;
  lift (slice_column proba 1).

(** Lines 119-139: the model and its performance on the data as it is. *)
Definition fit_model (X : loc) (y : list float) : M G (Model * float) :=
  s <- get_self ;;
  match estimator s with
  | Some est =>
      model <- call_fit est X y ;;
      y_pred <- call_predict model X ;;
      ret (model, 1%float)
  | None =>
      if regression s then
        model <- call_fit RandomForestRegressor X y ;;
        y_pred <- call_predict model X ;;
        model_performance <- lift (mean_squared_error y y_pred) ;;
        ret (model, model_performance)
      else
        model <- call_fit RandomForestClassifier X y ;;
        y_pred <- call_predict_proba_1 model X ;;
        model_performance <- lift (roc_auc_score y y_pred) ;;
        ret (model, model_performance)
  end.

(** Lines 160-170: the performance of the fitted model on a frame. *)
Definition shuffled_model_performance (model : Model) (X_shuffled : loc)
    (y : list float) : M G float :=
  s <- get_self ;;
  if regression s then
    shuffled_y_pred <- call_predict model X_shuffled ;;
    lift (mean_squared_error y shuffled_y_pred)
  else
    shuffled_y_pred <- call_predict_proba_1 model X_shuffled ;;
    lift (roc_auc_score y shuffled_y_pred).

(** [self.features_performance_drifts_[feature] = drift] *)
Definition record_drift (feature : string) (drift : float) : M G unit :=
  s <- get_self ;;
  match features_performance_drifts_ s with
  | Some d => set_self (with_drifts s (assoc_set feature drift d))
  | None => raise (AttributeError "features_performance_drifts_")
  end.

(** Lines 149-179: the body of the loop over the features. *)
Definition shuffle_feature (X : loc) (y : list float) (model : Model)
    (model_performance : float) (feature : string) : M G unit :=
  X_shuffled <- copy X ;;
  df <- frame_of X_shuffled ;;
  col <- lift (getitem df feature) ;;
  sampled <- with_rng (sample_frac1 col) ;;
  store X_shuffled (setitem df feature (reset_index_drop sampled)) >>
  shuffled <- shuffled_model_performance model X_shuffled y ;;
  let drift := PrimFloat.sub model_performance shuffled in
  record_drift feature drift.

Definition fit (X : loc) (y : list float) : M G unit :=
  X <- _is_dataframe X ;;
  s <- get_self ;;
  df <- frame_of X ;;
  features <- lift (_find_all_variables df (features_to_shuffle s)) ;;
  set_self (with_features s features) >>
  trained <- fit_model X y ;;
  s <- get_self ;;
  set_self (with_drifts s []) >>
  s <- get_self ;;
  match features_to_shuffle s with
  | Some features =>
      for_each features (shuffle_feature X y trained.1 trained.2)
  | None => raise (TypeError "'NoneType' object is not iterable")
  end.

(** [check_is_fitted(self)]: the object is fitted when it carries an
    attribute whose name ends with an underscore. *)
Definition check_is_fitted : M G unit :=
  s <- get_self ;;
  match features_performance_drifts_ s with
  | Some _ => ret tt
  | None => raise not_fitted
  end.

(** Lines 213-216: the features to drop. *)
Definition columns_to_drop (s : ShuffleFeatures G) (d : list (string * float))
    : list string :=
  if regression s then
    (List.filter (fun fd => PrimFloat.leb (threshold s) fd.2) d).*1
  else
    (List.filter (fun fd => PrimFloat.leb fd.2 (threshold s)) d).*1.

Definition transform (X : loc) : M G loc :=
  check_is_fitted >>
  X <- _is_dataframe X ;;
  s <- get_self ;;
  match features_performance_drifts_ s with
  | Some d =>
      df <- frame_of X ;;
      dropped <- lift (drop df (columns_to_drop s d)) ;;
      alloc (ODataFrame dropped)
  | None => raise (AttributeError "features_performance_drifts_")
  end.

End Methods.

(** ** The algorithm on values

    The steps of [fit] and [transform] as functions of the frame, the
    target, the selector and the random state, without the store.  The run
    lemmas below relate the methods to them. *)

Section Values.
Context {G : Type} `{!RandomState G} `{!Sklearn G}.

(** The metric of the mode: mean squared error of the predictions for a
    regression, area under the curve of the probability of the positive
    class otherwise. *)
Definition performance (regression : bool) (model : Model) (df : DataFrame)
    (y : list float) : res float :=
  if regression then
    match predict model df with
    | Ok y_pred => mean_squared_error y y_pred
    | Raise e => Raise e
    end
  else
    match predict_proba model df with
    | Ok proba =>
        match slice_column proba 1 with
        | Ok y_pred => roc_auc_score y y_pred
        | Raise e => Raise e
        end
    | Raise e => Raise e
    end.

(** The trained model and the baseline performance. *)
Definition baseline (s : ShuffleFeatures G) (df : DataFrame) (y : list float)
    (g : G) : res (Model * float) * G :=
  match estimator s with
  | Some est =>
      match est_fit est df y g with
      | (Ok model, g') =>
          match predict model df with
          | Ok _ => (Ok (model, 1%float), g')
          | Raise e => (Raise e, g')
          end
      | (Raise e, g') => (Raise e, g')
      end
  | None =>
      let default_estimator :=
        if regression s then RandomForestRegressor else RandomForestClassifier in
      match est_fit default_estimator df y g with
      | (Ok model, g') =>
          match performance (regression s) model df y with
          | Ok p => (Ok (model, p), g')
          | Raise e => (Raise e, g')
          end
      | (Raise e, g') => (Raise e, g')
      end
  end.

(** The frame with the column of [feature] shuffled. *)
Definition shuffled_frame (df : DataFrame) (feature : string) (g : G)
    : res DataFrame * G :=
  match getitem df feature with
  | Ok col =>
      let '(sampled, g') := sample_frac1 col g in
      (Ok (setitem df feature (reset_index_drop sampled)), g')
  | Raise e => (Raise e, g)
  end.

(** The drift of one feature: baseline minus shuffled performance. *)
Definition feature_drift (regression : bool) (model : Model) (base : float)
    (df : DataFrame) (y : list float) (feature : string) (g : G)
    : res float * G :=
  match shuffled_frame df feature g with
  | (Ok df', g') =>
      match performance regression model df' y with
      | Ok p => (Ok (PrimFloat.sub base p), g')
      | Raise e => (Raise e, g')
      end
  | (Raise e, g') => (Raise e, g')
  end.

(** The loop over the features: the mapping so far, and the random state. *)
Fixpoint drifts_loop (regression : bool) (model : Model) (base : float)
    (df : DataFrame) (y : list float) (features : list string)
    (d : list (string * float)) (g : G)
    : res unit * list (string * float) * G :=
  match features with
  | [] => (Ok tt, d, g)
  | f :: rest =>
      match feature_drift regression model base df y f g with
      | (Ok drift, g') =>
          drifts_loop regression model base df y rest (assoc_set f drift d) g'
      | (Raise e, g') => (Raise e, d, g')
      end
  end.

(** [fit] on values: the outcome, the selector and the random state. *)
Definition fit_values (s : ShuffleFeatures G) (df : DataFrame) (y : list float)
    (g : G) : res unit * ShuffleFeatures G * G :=
  match _find_all_variables df (features_to_shuffle s) with
  | Raise e => (Raise e, s, g)
  | Ok features =>
      let s1 := with_features s features in
      match baseline s1 df y g with
      | (Raise e, g1) => (Raise e, s1, g1)
      | (Ok (model, base), g1) =>
          let '(r, d, g2) :=
            drifts_loop (regression s1) model base df y features [] g1 in
          (r, with_drifts s1 d, g2)
      end
  end.

(** [transform] on values. *)
Definition transform_values (s : ShuffleFeatures G) (df : DataFrame)
    : res DataFrame :=
  match features_performance_drifts_ s with
  | None => Raise not_fitted
  | Some d => drop df (columns_to_drop s d)
  end.

(** Whether [fit] gets as far as the loop over the features: the features
    resolve and the model is trained and measured. *)
Definition fit_reaches_loop (s : ShuffleFeatures G) (df : DataFrame)
    (y : list float) (g : G) : bool :=
  match _find_all_variables df (features_to_shuffle s) with
  | Ok features => is_Ok (baseline (with_features s features) df y g).1
  | Raise _ => false
  end.

End Values.


(** The selector with other values of [cv] and [scoring]. *)
Definition with_cv_scoring {G} (s : ShuffleFeatures G) (c : bool) (sc : string)
    : ShuffleFeatures G :=
  {| features_to_shuffle := features_to_shuffle s;
     estimator := estimator s;
     scoring := sc;
     threshold := threshold s;
     regression := regression s;
     cv := c;
     features_performance_drifts_ := features_performance_drifts_ s |}.

(** The selector with another threshold. *)
Definition with_threshold {G} (s : ShuffleFeatures G) (t : float)
    : ShuffleFeatures G :=
  {| features_to_shuffle := features_to_shuffle s;
     estimator := estimator s;
     scoring := scoring s;
     threshold := t;
     regression := regression s;
     cv := cv s;
     features_performance_drifts_ := features_performance_drifts_ s |}.

(** ** Collaborators to run the methods with

    A small generator, two plain estimators and the two metrics, enough to
    execute [fit] and [transform] on concrete frames. *)

Module Toy.

(** A linear congruential generator; the bounded draw is the state reduced
    modulo [m + 1]. *)
Definition lcg_interval (g : N) (m : nat) : nat * N :=
  (N.to_nat (g mod N.of_nat (S m)), ((g * 1103515245 + 12345) mod 2147483648)%N).

Lemma lcg_interval_le g m : (lcg_interval g m).1 <= m.
Proof.
  unfold lcg_interval; simpl fst.
  pose proof (N.mod_upper_bound g (N.of_nat (S m))). lia.
Qed.

#[global] Instance lcg : RandomState N :=
  {| random_interval := lcg_interval; random_interval_le := lcg_interval_le |}.

Definition fsum (l : list float) : float := fold_right PrimFloat.add 0%float l.

Definition flen {A} (l : list A) : float :=
  fold_right (fun _ n => PrimFloat.add n 1%float) 0%float l.

Definition has_nan (df : DataFrame) : bool :=
  existsb (fun cv => existsb (fun x => negb (PrimFloat.eqb x x)) cv.2) (columns df).

(** A regressor: it predicts the sum of the cells of each row, and refuses
    a frame with a missing cell; it has no [predict_proba]. *)
Fixpoint row_sums (n : nat) (cols : list (list float)) : list float :=
  match n with
  | O => []
  | S n' =>
      fsum ((fun c => default 0%float (head c)) <$> cols)
        :: row_sums n' ((fun c => tail c) <$> cols)
  end.

Definition sum_model : Model :=
  {| predict := fun df =>
       if has_nan df then Raise (ValueError "Input contains NaN")
       else Ok (row_sums (length (index df)) (columns df).*2);
     predict_proba := fun _ => Raise (AttributeError "predict_proba") |}.

Definition sum_regressor : Estimator N :=
  {| est_fit := fun df y g =>
       if has_nan df then (Raise (ValueError "Input contains NaN"), g)
       else (Ok sum_model, g) |}.

(** A regressor that ignores the features and predicts the mean of the
    target it was fitted on. *)
Definition constant_model (c : float) : Model :=
  {| predict := fun df => Ok ((fun _ => c) <$> index df);
     predict_proba := fun _ => Raise (AttributeError "predict_proba") |}.

Definition mean_regressor : Estimator N :=
  {| est_fit := fun df y g =>
       (Ok (constant_model (PrimFloat.div (fsum y) (flen y))), g) |}.

(** A classifier: the classes are the distinct values of the target; the
    score of a row is its first cell, the probabilities of a row hold one
    entry per class. *)
Fixpoint distinct (l : list float) : list float :=
  match l with
  | [] => []
  | x :: l' => x :: List.filter (fun z => negb (PrimFloat.eqb z x)) (distinct l')
  end.

Definition first_cells (df : DataFrame) : list float :=
  match columns df with
  | [] => (fun _ => 0%float) <$> index df
  | (_, v) :: _ => v
  end.

Definition score_model (n_classes : nat) : Model :=
  {| predict := fun df => Ok (first_cells df);
     predict_proba := fun df =>
       Ok {| shape1 := n_classes;
             rows := (fun x =>
                        match n_classes with
                        | 1 => [1%float]
                        | _ => [PrimFloat.sub 1%float x; x]
                        end) <$> first_cells df |} |}.

Definition score_classifier : Estimator N :=
  {| est_fit := fun df y g => (Ok (score_model (length (distinct y))), g) |}.

(** Mean squared error. *)
Fixpoint squared_errors (y p : list float) : list float :=
  match y, p with
  | a :: y', b :: p' =>
      PrimFloat.mul (PrimFloat.sub a b) (PrimFloat.sub a b) :: squared_errors y' p'
  | _, _ => []
  end.

Definition mse (y p : list float) : res float :=
  if Nat.eqb (length y) (length p) then
    Ok (PrimFloat.div (fsum (squared_errors y p)) (flen y))
  else Raise (ValueError "Found input variables with inconsistent numbers of samples").

(** Area under the curve: the share of (positive, negative) pairs that the
    scores order correctly, ties counting for a half. *)
Definition pair_score (sp sn : float) : float :=
  if PrimFloat.ltb sn sp then 1%float
  else if PrimFloat.eqb sn sp then 0.5%float else 0%float.

Definition auc (y p : list float) : res float :=
  let yp := zip y p in
  let pos := (List.filter (fun a => PrimFloat.ltb 0%float a.1) yp).*2 in
  let neg := (List.filter (fun a => negb (PrimFloat.ltb 0%float a.1)) yp).*2 in
  match pos, neg with
  | [], _ | _, [] => Raise (ValueError "Only one class present in y_true")
  | _, _ =>
      Ok (PrimFloat.div
            (fsum ((fun sp => fsum (pair_score sp <$> neg)) <$> pos))
            (PrimFloat.mul (flen pos) (flen neg)))
  end.

#[global] Instance sklearn : Sklearn N :=
  {| RandomForestRegressor := sum_regressor;
     RandomForestClassifier := score_classifier;
     mean_squared_error := mse;
     roc_auc_score := auc |}.

(** Three rows, two features; [a] determines the target. *)
Definition frame_ab : DataFrame :=
  {| index := [0; 1; 2]%Z;
     columns := [("a"%string, [1; 2; 3]%float); ("b"%string, [0; 0; 0]%float)] |}.

Definition target_ab : list float := [1; 2; 3]%float.

(** The same rows under the labels 1, 2, 3, as a slice of a longer frame
    would carry them. *)
Definition frame_ab_from_1 : DataFrame :=
  {| index := [1; 2; 3]%Z; columns := columns frame_ab |}.


(** One row, two features. *)
Definition frame_one : DataFrame :=
  {| index := [0]%Z;
     columns := [("a"%string, [1]%float); ("b"%string, [0]%float)] |}.

Definition start (s : ShuffleFeatures N) (objs : list object) (seed : N) : world N :=
  {| self := s;
     heap := list_to_map (zip (Pos.of_nat <$> seq 1 (length objs)) objs);
     rng := seed |}.

(** The selector [ShuffleFeatures(regression, cv=True, ...)] as the
    constructor builds it. *)
Definition selector (regression : bool) (features : variables)
    (est : option (Estimator N)) : ShuffleFeatures N :=
  {| features_to_shuffle := _define_variables features;
     estimator := est;
     scoring := "neg_mean_squared_error";
     threshold := 0;
     regression := regression;
     cv := true;
     features_performance_drifts_ := None |}.

(** A world whose store holds [frame_ab] at address 1, and the same world
    after a regression selector was fitted there. *)
Definition world_ab (s : ShuffleFeatures N) : world N :=
  start s [ODataFrame frame_ab] 42.

Definition fitted_ab : world N :=
  (fit 1%positive target_ab (world_ab (selector true NoVariables None))).2.

End Toy.

(** * Properties *)

(** ** Lists, dictionaries and frames *)

Lemma assoc_lookup_Some_names {A} name (cols : list (string * A)) v :
  assoc_lookup name cols = Some v -> name ∈ cols.*1.
Proof.
  induction cols as [|[c x] cols IH]; simpl; [discriminate|].
  destruct (String.eqb_spec c name) as [->|_]; intros H.
  - apply list_elem_of_here.
  - apply list_elem_of_further, IH, H.
Qed.

Lemma assoc_lookup_names {A} name (cols : list (string * A)) :
  name ∈ cols.*1 -> is_Some (assoc_lookup name cols).
Proof.
  induction cols as [|[c x] cols IH]; simpl; intros H.
  - inversion H.
  - destruct (String.eqb_spec c name) as [->|Hne]; [eauto|].
    apply IH. inversion H; subst; [congruence|assumption].
Qed.

Lemma name_in_spec names c : name_in names c = true <-> c ∈ names.
Proof.
  unfold name_in. rewrite existsb_exists. split.
  - intros (x & Hin & Heq). apply String.eqb_eq in Heq. subst.
    by apply list_elem_of_In.
  - intros H. exists c. split; [by apply list_elem_of_In | apply String.eqb_refl].
Qed.

Lemma find_absent_None names (l : list string) :
  List.find (fun c => negb (name_in names c)) l = None <-> (forall c, c ∈ l -> c ∈ names).
Proof.
  induction l as [|a l IH]; simpl.
  - split; [intros _ c H; inversion H | done].
  - destruct (name_in names a) eqn:E; simpl.
    + rewrite IH. apply name_in_spec in E. split.
      * intros H c Hc. inversion Hc; subst; auto.
      * intros H c Hc. apply H. by apply list_elem_of_further.
    + split; [discriminate|]. intros H.
      assert (name_in names a = true) as E'.
      { apply name_in_spec, H, list_elem_of_here. }
      congruence.
Qed.

Lemma assoc_set_keys {A} k (v : A) d f :
  f ∈ (assoc_set k v d).*1 <-> f = k \/ f ∈ d.*1.
Proof.
  induction d as [|[k' v'] d IH]; simpl.
  - rewrite list_elem_of_singleton. split; [auto|].
    intros [H|H]; [done | inversion H].
  - destruct (String.eqb_spec k' k) as [->|Hne]; simpl.
    + rewrite !elem_of_cons. tauto.
    + rewrite !elem_of_cons, IH. tauto.
Qed.

Lemma assoc_set_NoDup {A} k (v : A) d : NoDup d.*1 -> NoDup (assoc_set k v d).*1.
Proof.
  induction d as [|[k' v'] d IH]; simpl; intros H.
  - apply NoDup_singleton.
  - apply NoDup_cons in H as [Hk' Hd].
    destruct (String.eqb_spec k' k) as [->|Hne]; simpl.
    + by apply NoDup_cons.
    + apply NoDup_cons. split; [|auto].
      rewrite assoc_set_keys. intros [H|H]; [congruence | done].
Qed.

Lemma assoc_set_lookup {A} k (v : A) d : assoc_lookup k (assoc_set k v d) = Some v.
Proof.
  induction d as [|[k' v'] d IH]; simpl.
  - by rewrite String.eqb_refl.
  - destruct (String.eqb_spec k' k) as [->|Hne]; simpl.
    + by rewrite String.eqb_refl.
    + by apply String.eqb_neq in Hne as ->.
Qed.

Lemma assoc_set_lookup_ne {A} k (v : A) d f :
  f <> k -> assoc_lookup f (assoc_set k v d) = assoc_lookup f d.
Proof.
  intros Hne. induction d as [|[k' v'] d IH]; simpl.
  - destruct (String.eqb_spec k f); congruence.
  - destruct (String.eqb_spec k' k) as [->|Hne']; simpl.
    + destruct (String.eqb_spec k f); congruence.
    + destruct (String.eqb_spec k' f); congruence.
Qed.

(** ** The permutation drawn by [sample] *)

Lemma swap_Permutation buf i j : swap buf i j ≡ₚ buf.
Proof.
  unfold swap.
  destruct (buf !! i) as [a|] eqn:Hi; [|done].
  destruct (buf !! j) as [b|] eqn:Hj; [|done].
  by apply Permutation_insert_swap.
Qed.

Lemma shuffle_from_Permutation {G} `{!RandomState G} i buf (g : G) :
  (shuffle_from i buf g).1 ≡ₚ buf.
Proof.
  revert buf g. induction i as [|i IH]; intros buf g; simpl; [done|].
  destruct (random_interval g (S i)) as [j g'].
  rewrite IH. apply swap_Permutation.
Qed.

Lemma permutation_Permutation {G} `{!RandomState G} n (g : G) :
  (permutation n g).1 ≡ₚ seq 0 n.
Proof. apply shuffle_from_Permutation. Qed.

Lemma lookup_all_positions {A} (dflt : A) (l : list A) :
  (fun k => default dflt (l !! k)) <$> seq 0 (length l) = l.
Proof.
  apply list_eq. intros i. rewrite list_lookup_fmap.
  destruct (decide (i < length l)) as [Hlt|Hge].
  - rewrite lookup_seq_lt by done. simpl.
    destruct (lookup_lt_is_Some_2 l i Hlt) as [x Hx]. by rewrite Hx.
  - rewrite lookup_seq_ge by lia. simpl.
    symmetry. apply lookup_ge_None. lia.
Qed.

(** The sampled series holds the values of the series, in some order. *)
Lemma sample_frac1_Permutation {G} `{!RandomState G} (s : Series) (g : G) :
  s_values (sample_frac1 s g).1 ≡ₚ s_values s.
Proof.
  unfold sample_frac1.
  pose proof (permutation_Permutation (length (s_values s)) g) as Hp.
  destruct (permutation (length (s_values s)) g) as [locs g']. simpl in *.
  rewrite Hp. by rewrite lookup_all_positions.
Qed.

Lemma sample_frac1_length {G} `{!RandomState G} (s : Series) (g : G) :
  length (s_values (sample_frac1 s g).1) = length (s_values s).
Proof. apply Permutation_length, sample_frac1_Permutation. Qed.

(** ** Alignment on the row labels *)

Lemma Series_at_RangeIndex_from (vals : list float) (start k : nat) :
  Series_at (Z.of_nat <$> seq start (length vals)) vals (Z.of_nat (start + k))
  = vals !! k.
Proof.
  revert start k. induction vals as [|v vals IH]; intros start k; simpl; [done|].
  destruct (Z.eqb_spec (Z.of_nat start) (Z.of_nat (start + k))) as [Heq|Hne].
  - assert (k = 0) as -> by lia. done.
  - destruct k as [|k]; [exfalso; apply Hne; f_equal; lia|].
    simpl. rewrite <- (IH (S start) k). do 2 f_equal. lia.
Qed.

Lemma Series_at_RangeIndex (vals : list float) (k : nat) :
  Series_at (RangeIndex (length vals)) vals (Z.of_nat k) = vals !! k.
Proof. apply (Series_at_RangeIndex_from vals 0 k). Qed.

(** On a frame whose row labels are [0 .. n-1], in any order, the aligned
    values are the values of the series, in some order. *)
Lemma reindex_reset_Permutation (s : Series) (idx : list Z) :
  idx ≡ₚ RangeIndex (length (s_values s)) ->
  reindex (reset_index_drop s) idx ≡ₚ s_values s.
Proof.
  intros Hidx. unfold reindex, reset_index_drop; simpl.
  rewrite Hidx. unfold RangeIndex. rewrite <- list_fmap_compose.
  transitivity ((fun k => default nan (s_values s !! k))
                  <$> seq 0 (length (s_values s))).
  - erewrite list_fmap_ext; [reflexivity|].
    intros i x _. unfold compose. f_equal.
    apply (Series_at_RangeIndex (s_values s) x).
  - by rewrite lookup_all_positions.
Qed.

(** ** Running the methods

    Each method, run in a world whose store holds the frame, computes what
    the algorithm on values computes and only adds objects to the store. *)

Section Runs.
Context {G : Type} `{!RandomState G} `{!Sklearn G}.
Implicit Types (s : ShuffleFeatures G) (h : gmap loc object) (g : G).

Lemma fresh_lookup_None h : h !! fresh (dom h) = None.
Proof. apply not_elem_of_dom, is_fresh. Qed.

Lemma insert_fresh_subseteq h o : h ⊆ <[fresh (dom h) := o]> h.
Proof. apply insert_subseteq, fresh_lookup_None. Qed.

Lemma frame_of_run s h g X df :
  h !! X = Some (ODataFrame df) ->
  frame_of X (Build_world s h g) = (Ok df, Build_world s h g).
Proof. intros H. unfold frame_of; simpl. by rewrite H. Qed.

Lemma copy_run s h g X df :
  h !! X = Some (ODataFrame df) ->
  copy X (Build_world s h g)
  = (Ok (fresh (dom h)), Build_world s (<[fresh (dom h) := ODataFrame df]> h) g).
Proof.
  intros H. unfold copy, bind. by rewrite (frame_of_run _ _ _ _ _ H).
Qed.

Lemma call_predict_run s h g model X df :
  h !! X = Some (ODataFrame df) ->
  call_predict model X (Build_world s h g) = (predict model df, Build_world s h g).
Proof.
  intros H. unfold call_predict, bind, lift. rewrite (frame_of_run _ _ _ _ _ H).
  reflexivity.
Qed.

Lemma call_predict_proba_1_run s h g model X df :
  h !! X = Some (ODataFrame df) ->
  call_predict_proba_1 model X (Build_world s h g)
  = (match predict_proba model df with
     | Ok proba => slice_column proba 1
     | Raise e => Raise e
     end, Build_world s h g).
Proof.
  intros H. unfold call_predict_proba_1, bind, lift.
  rewrite (frame_of_run _ _ _ _ _ H).
  destruct (predict_proba model df); reflexivity.
Qed.

Lemma shuffled_model_performance_run s h g model X df y :
  h !! X = Some (ODataFrame df) ->
  shuffled_model_performance model X y (Build_world s h g)
  = (performance (regression s) model df y, Build_world s h g).
Proof.
  intros H. unfold shuffled_model_performance, performance, bind, get_self, lift.
  simpl. destruct (regression s).
  - rewrite (call_predict_run _ _ _ _ _ _ H). destruct (predict model df); reflexivity.
  - rewrite (call_predict_proba_1_run _ _ _ _ _ _ H).
    destruct (predict_proba model df) as [proba|]; [|reflexivity].
    destruct (slice_column proba 1); reflexivity.
Qed.

Lemma shuffle_feature_run s d h g X df y model base f :
  h !! X = Some (ODataFrame df) ->
  exists h', h ⊆ h' /\
    shuffle_feature X y model base f (Build_world (with_drifts s d) h g)
    = match feature_drift (regression s) model base df y f g with
      | (Ok drift, g') =>
          (Ok tt, Build_world (with_drifts s (assoc_set f drift d)) h' g')
      | (Raise e, g') => (Raise e, Build_world (with_drifts s d) h' g')
      end.
Proof.
  intros HX. unfold shuffle_feature, feature_drift, shuffled_frame.
  unfold bind at 1. rewrite (copy_run _ _ _ _ _ HX).
  set (l := fresh (dom h)).
  unfold bind at 1. rewrite (frame_of_run _ _ _ l df) by apply lookup_insert_eq.
  unfold bind at 1, lift at 1.
  destruct (getitem df f) as [col|e].
  2:{ eexists; split; [apply insert_fresh_subseteq | reflexivity]. }
  unfold bind at 1, with_rng at 1. simpl.
  destruct (sample_frac1 col g) as [sampled g'].
  unfold bind at 1, store at 1. simpl.
  rewrite insert_insert_eq.
  unfold bind at 1.
  rewrite (shuffled_model_performance_run _ _ _ _ l
             (setitem df f (reset_index_drop sampled))) by apply lookup_insert_eq.
  simpl.
  exists (<[l := ODataFrame (setitem df f (reset_index_drop sampled))]> h).
  split; [apply insert_fresh_subseteq|].
  destruct (performance (regression s) model
              (setitem df f (reset_index_drop sampled)) y); reflexivity.
Qed.


Lemma for_each_run s features : forall d h g X df y model base,
  h !! X = Some (ODataFrame df) ->
  exists h', h ⊆ h' /\
    for_each features (shuffle_feature X y model base)
      (Build_world (with_drifts s d) h g)
    = (let '(r, d', g') :=
         drifts_loop (regression s) model base df y features d g in
       (r, Build_world (with_drifts s d') h' g')).
Proof.
  induction features as [|f rest IH]; intros d h g X df y model base HX; simpl.
  - exists h. split; [done | reflexivity].
  - destruct (shuffle_feature_run s d h g X df y model base f HX)
      as (h1 & Hsub & Hrun).
    unfold bind. rewrite Hrun.
    destruct (feature_drift (regression s) model base df y f g) as [[drift|e] g1].
    + assert (h1 !! X = Some (ODataFrame df)) as HX1.
      { eapply lookup_weaken; eauto. }
      destruct (IH (assoc_set f drift d) h1 g1 X df y model base HX1)
        as (h2 & Hsub2 & Hrun2).
      exists h2. split; [by etrans | exact Hrun2].
    + exists h1. split; [done | reflexivity].
Qed.

Lemma call_fit_run s h g est X df y :
  h !! X = Some (ODataFrame df) ->
  call_fit est X y (Build_world s h g)
  = ((est_fit est df y g).1, Build_world s h (est_fit est df y g).2).
Proof.
  intros H. unfold call_fit, bind. rewrite (frame_of_run _ _ _ _ _ H). simpl.
  destruct (est_fit est df y g); reflexivity.
Qed.

Lemma fit_model_run s h g X df y :
  h !! X = Some (ODataFrame df) ->
  fit_model X y (Build_world s h g)
  = ((baseline s df y g).1, Build_world s h (baseline s df y g).2).
Proof.
  intros H. unfold fit_model, baseline, bind at 1, get_self at 1. simpl.
  destruct (estimator s) as [est|].
  - unfold bind at 1. rewrite (call_fit_run _ _ _ _ _ _ _ H).
    destruct (est_fit est df y g) as [[model|e] g1]; simpl; [|reflexivity].
    unfold bind. rewrite (call_predict_run _ _ _ _ _ _ H).
    destruct (predict model df); reflexivity.
  - destruct (regression s).
    + unfold bind at 1. rewrite (call_fit_run _ _ _ _ _ _ _ H).
      destruct (est_fit RandomForestRegressor df y g) as [[model|e] g1];
        simpl; [|reflexivity].
      unfold bind at 1. rewrite (call_predict_run _ _ _ _ _ _ H).
      destruct (predict model df) as [y_pred|]; [|reflexivity].
      unfold bind, lift. destruct (mean_squared_error y y_pred); reflexivity.
    + unfold bind at 1. rewrite (call_fit_run _ _ _ _ _ _ _ H).
      destruct (est_fit RandomForestClassifier df y g) as [[model|e] g1];
        simpl; [|reflexivity].
      unfold bind at 1. rewrite (call_predict_proba_1_run _ _ _ _ _ _ H).
      destruct (predict_proba model df) as [proba|]; [|reflexivity].
      destruct (slice_column proba 1) as [y_pred|]; [|reflexivity].
      unfold bind, lift. destruct (roc_auc_score y y_pred); reflexivity.
Qed.

(** [fit] on a frame: the outcome, the selector and the random state are
    those of [fit_values]; the store only grows. *)
Lemma fit_run s h g X df y :
  h !! X = Some (ODataFrame df) ->
  exists h', h ⊆ h' /\
    fit X y (Build_world s h g)
    = (let '(r, s', g') := fit_values s df y g in (r, Build_world s' h' g')).
Proof.
  intros HX. unfold fit, fit_values, _is_dataframe.
  unfold bind at 1. rewrite (copy_run _ _ _ _ _ HX).
  set (l := fresh (dom h)). set (h1 := <[l := ODataFrame df]> h).
  assert (h ⊆ h1) as Hsub by apply insert_fresh_subseteq.
  assert (h1 !! l = Some (ODataFrame df)) as Hl by apply lookup_insert_eq.
  unfold bind at 1, get_self at 1. simpl.
  unfold bind at 1. rewrite (frame_of_run _ _ _ _ _ Hl).
  unfold bind at 1, lift at 1.
  destruct (_find_all_variables df (features_to_shuffle s)) as [features|e].
  2:{ exists h1. split; [done | reflexivity]. }
  unfold bind at 1, set_self at 1. simpl.
  unfold bind at 1. rewrite (fit_model_run _ _ _ _ _ _ Hl).
  destruct (baseline (with_features s features) df y g) as [[[model base]|e] g1];
    simpl.
  2:{ exists h1. split; [done | reflexivity]. }
  unfold bind at 1, get_self at 1. simpl.
  unfold bind at 1, set_self at 1. simpl.
  unfold bind at 1, get_self at 1. simpl.
  destruct (for_each_run (with_features s features) features [] h1 g1 l df y
              model base Hl) as (h2 & Hsub2 & Hrun).
  exists h2. split; [by etrans|].
  etrans; [exact Hrun|]. simpl.
  destruct (drifts_loop (regression s) model base df y features [] g1)
    as [[r d] g2]. reflexivity.
Qed.

(** [fit] on anything but a frame raises the type error and changes nothing. *)
Lemma fit_not_frame (w : world G) X y :
  (forall df, heap w !! X <> Some (ODataFrame df)) ->
  fit X y w = (Raise (TypeError "The data set should be a pandas dataframe"), w).
Proof.
  intros H. unfold fit, _is_dataframe, copy, bind, frame_of.
  destruct (heap w !! X) as [[df|]|]; [by destruct (H df)|done..].
Qed.

Lemma transform_run s h g X df :
  h !! X = Some (ODataFrame df) ->
  exists h' r, h ⊆ h' /\
    transform X (Build_world s h g) = (r, Build_world s h' g) /\
    match transform_values s df with
    | Ok df' => exists l, r = Ok l /\ h !! l = None /\ h' !! l = Some (ODataFrame df')
    | Raise e => r = Raise e
    end.
Proof.
  intros HX. unfold transform, transform_values, check_is_fitted, _is_dataframe.
  unfold bind at 1. unfold bind at 1, get_self at 1. simpl.
  destruct (features_performance_drifts_ s) as [d|] eqn:Hd; simpl.
  2:{ exists h. eexists. split; [done|]. split; reflexivity. }
  unfold bind at 1. rewrite (copy_run _ _ _ _ _ HX).
  set (l := fresh (dom h)). set (h1 := <[l := ODataFrame df]> h).
  assert (h ⊆ h1) as Hsub by apply insert_fresh_subseteq.
  assert (h1 !! l = Some (ODataFrame df)) as Hl by apply lookup_insert_eq.
  unfold bind at 1, get_self at 1. simpl. rewrite Hd.
  unfold bind at 1. rewrite (frame_of_run _ _ _ _ _ Hl).
  unfold bind at 1, lift at 1.
  destruct (drop df (columns_to_drop s d)) as [df'|e].
  - unfold alloc. simpl.
    exists (<[fresh (dom h1) := ODataFrame df']> h1). eexists.
    split; [etrans; [exact Hsub | apply insert_fresh_subseteq]|].
    split; [reflexivity|].
    exists (fresh (dom h1)). split; [done|]. split; [|apply lookup_insert_eq].
    destruct (h !! fresh (dom h1)) eqn:E; [|done].
    eapply lookup_weaken in E; [|exact Hsub].
    by rewrite fresh_lookup_None in E.
  - exists h1. eexists. split; [done|]. split; reflexivity.
Qed.

End Runs.


(** ** Comparisons of floats *)

Lemma SFcompare_Eq_sym x y : SFcompare x y = Some Eq -> SFcompare y x = Some Eq.
Proof.
  destruct x as [sx|sx| |sx mx ex], y as [sy|sy| |sy my ey]; simpl; try done;
    try (destruct sx; done); try (destruct sy; done).
  - by destruct sx, sy.
  - destruct sx, sy; try done.
    + destruct (Z.compare_spec ex ey) as [->| |]; try done.
      rewrite Z.compare_refl. intros H.
      assert (Pos.compare_cont Eq mx my = Eq) as H'.
      { destruct (Pos.compare_cont Eq mx my); simpl in H; congruence. }
      apply Pos.compare_eq in H'. subst. by rewrite Pos.compare_cont_refl.
    + destruct (Z.compare_spec ex ey) as [->| |]; try done.
      rewrite Z.compare_refl. intros H.
      assert (Pos.compare_cont Eq mx my = Eq) as H' by congruence.
      apply Pos.compare_eq in H'. subst. by rewrite Pos.compare_cont_refl.
Qed.

Lemma float_eqb_leb x y :
  PrimFloat.eqb x y = true -> PrimFloat.leb x y = true /\ PrimFloat.leb y x = true.
Proof.
  rewrite FloatAxioms.eqb_spec, !FloatAxioms.leb_spec. unfold SFeqb, SFleb.
  destruct (SFcompare (Prim2SF x) (Prim2SF y)) as [[]|] eqn:E; try done.
  intros _. by rewrite (SFcompare_Eq_sym _ _ E).
Qed.

Lemma nan_not_in_123 a b : ~ [a; b; nan] ≡ₚ [1; 2; 3]%float.
Proof.
  intros Hp.
  assert (nan ∈ [1; 2; 3]%float) as Hin.
  { rewrite <- Hp. apply list_elem_of_further, list_elem_of_further, list_elem_of_here. }
  assert (forall x, x ∈ [1; 2; 3]%float -> PrimFloat.eqb x x = true) as Hnum.
  { intros x Hx. repeat (apply elem_of_cons in Hx as [->|Hx]; [reflexivity|]).
    by apply elem_of_nil in Hx. }
  specialize (Hnum _ Hin). vm_compute in Hnum. discriminate.
Qed.

(** ** Frames after a shuffle *)

Lemma assoc_set_names {A} name (vals : A) (cols : list (string * A)) :
  name ∈ cols.*1 -> (assoc_set name vals cols).*1 = cols.*1.
Proof.
  induction cols as [|[c v] cols IH]; simpl; intros H.
  - inversion H.
  - destruct (String.eqb_spec c name) as [->|Hne]; simpl; [done|].
    f_equal. apply IH. inversion H; subst; [congruence | done].
Qed.

Lemma assoc_lookup_elem {A} name (cols : list (string * A)) v :
  assoc_lookup name cols = Some v -> (name, v) ∈ cols.
Proof.
  induction cols as [|[c x] cols IH]; simpl; [discriminate|].
  destruct (String.eqb_spec c name) as [->|_].
  - intros [= ->]. apply list_elem_of_here.
  - intros H. apply list_elem_of_further, IH, H.
Qed.

Lemma List_filter_sublist {A} (f : A -> bool) (l : list A) :
  sublist (List.filter f l) l.
Proof.
  induction l as [|a l IH]; simpl; [constructor|].
  destruct (f a); by constructor.
Qed.

Section Shuffle.
Context {G : Type} `{!RandomState G}.

Lemma shuffled_frame_inv df f (g : G) df_f :
  (shuffled_frame df f g).1 = Ok df_f ->
  exists vals,
    assoc_lookup f (columns df) = Some vals
    /\ df_f = setitem df f
         (reset_index_drop
            (sample_frac1 {| s_index := index df; s_values := vals |} g).1).
Proof.
  unfold shuffled_frame, getitem.
  destruct (assoc_lookup f (columns df)) as [vals|]; [|discriminate].
  destruct (sample_frac1 _ g) as [sampled g'] eqn:Hs. simpl.
  intros [= <-]. exists vals. by rewrite Hs.
Qed.

(** Off that index the labels that fall outside [0 .. n-1] receive [nan]:
    on the rows labelled 1, 2, 3 the last cell is lost, whatever the draw. *)
Lemma shuffle_off_default_index (g : G) :
  exists a b,
    (shuffled_frame Toy.frame_ab_from_1 "a" g).1
    = Ok {| index := [1; 2; 3]%Z;
            columns := [("a"%string, [a; b; nan]);
                        ("b"%string, [0; 0; 0]%float)] |}.
Proof.
  unfold shuffled_frame. simpl.
  pose proof (sample_frac1_length
                {| s_index := [1; 2; 3]%Z; s_values := [1; 2; 3]%float |} g) as Hlen.
  destruct (sample_frac1 _ g) as [[idx vals] g']. simpl in *.
  destruct vals as [|x0 [|x1 [|x2 [|]]]]; try discriminate.
  by exists x1, x2.
Qed.

End Shuffle.

(** ** The steps of [fit] and [transform] *)

Section Steps.
Context {G : Type} `{!RandomState G} `{!Sklearn G}.


Lemma drop_Ok df labels :
  (forall c, c ∈ labels -> c ∈ column_names df) ->
  drop df labels
  = Ok {| index := index df;
          columns := List.filter (fun cv => negb (name_in labels cv.1)) (columns df) |}.
Proof.
  intros H. unfold drop. apply find_absent_None in H. by rewrite H.
Qed.

Lemma columns_to_drop_spec (s : ShuffleFeatures G) d f :
  f ∈ columns_to_drop s d <->
  exists drift, (f, drift) ∈ d /\
    (if regression s then PrimFloat.leb (threshold s) drift
     else PrimFloat.leb drift (threshold s)) = true.
Proof.
  unfold columns_to_drop. destruct (regression s);
    rewrite list_elem_of_fmap; split.
  - intros ([f' drift] & -> & Hin). apply list_elem_of_In, filter_In in Hin as [Hin Hc].
    exists drift. split; [by apply list_elem_of_In | done].
  - intros (drift & Hin & Hc). exists (f, drift). split; [done|].
    apply list_elem_of_In, filter_In. split; [by apply list_elem_of_In | done].
  - intros ([f' drift] & -> & Hin). apply list_elem_of_In, filter_In in Hin as [Hin Hc].
    exists drift. split; [by apply list_elem_of_In | done].
  - intros (drift & Hin & Hc). exists (f, drift). split; [done|].
    apply list_elem_of_In, filter_In. split; [by apply list_elem_of_In | done].
Qed.

Lemma fit_Ok_frame (w w' : world G) X y :
  fit X y w = (Ok tt, w') -> exists df, heap w !! X = Some (ODataFrame df).
Proof.
  intros Hfit. destruct (heap w !! X) as [[df|]|] eqn:E; [by exists df| |];
    (rewrite fit_not_frame in Hfit;
     [discriminate | intros df; rewrite E; discriminate]).
Qed.

Lemma fit_values_Ok_inv (s s' : ShuffleFeatures G) df y g g' :
  fit_values s df y g = (Ok tt, s', g') ->
  exists features model base g1 d,
    _find_all_variables df (features_to_shuffle s) = Ok features
    /\ baseline (with_features s features) df y g = (Ok (model, base), g1)
    /\ drifts_loop (regression s) model base df y features [] g1 = (Ok tt, d, g')
    /\ s' = with_drifts (with_features s features) d.
Proof.
  unfold fit_values.
  destruct (_find_all_variables df (features_to_shuffle s)) as [features|];
    [|discriminate].
  destruct (baseline (with_features s features) df y g)
    as [[[model base]|] g1] eqn:Hbase; [|discriminate].
  simpl.
  destruct (drifts_loop (regression s) model base df y features [] g1)
    as [[r d] g2] eqn:Hloop.
  intros [= -> <- ->]. by exists features, model, base, g1, d.
Qed.

Lemma drifts_loop_keys r model base df y features :
  forall d g d' g',
    drifts_loop r model base df y features d g = (Ok tt, d', g') ->
    forall f, f ∈ d'.*1 <-> f ∈ d.*1 \/ f ∈ features.
Proof.
  induction features as [|a rest IH]; intros d g d' g'; simpl.
  - intros [= <- <-] f. rewrite elem_of_nil. tauto.
  - destruct (feature_drift r model base df y a g) as [[drift|e] g1];
      [|discriminate].
    intros Hloop f. rewrite (IH _ _ _ _ Hloop), assoc_set_keys, elem_of_cons.
    tauto.
Qed.

Lemma drifts_loop_NoDup r model base df y features :
  forall d g,
    NoDup d.*1 ->
    NoDup (drifts_loop r model base df y features d g).1.2.*1.
Proof.
  induction features as [|a rest IH]; intros d g Hd; simpl; [done|].
  destruct (feature_drift r model base df y a g) as [[drift|e] g1]; [|done].
  by apply IH, assoc_set_NoDup.
Qed.

Lemma feature_drift_inv r model base df y f g drift :
  (feature_drift r model base df y f g).1 = Ok drift ->
  exists g_f df_f shuffled,
    (shuffled_frame df f g_f).1 = Ok df_f
    /\ performance r model df_f y = Ok shuffled
    /\ drift = PrimFloat.sub base shuffled.
Proof.
  unfold feature_drift.
  destruct (shuffled_frame df f g) as [[df_f|] g1] eqn:Hsh; [|discriminate].
  destruct (performance r model df_f y) as [p|] eqn:Hp; [|discriminate].
  intros [= <-]. exists g, df_f, p. by rewrite Hsh.
Qed.

(** Every entry the loop leaves in the mapping is a baseline minus the
    performance on a frame with that feature shuffled. *)
Lemma drifts_loop_values r model base df y features
    (Q : string -> float -> Prop) :
  (forall f g drift, (feature_drift r model base df y f g).1 = Ok drift -> Q f drift) ->
  forall d g d' g',
    drifts_loop r model base df y features d g = (Ok tt, d', g') ->
    (forall f v, assoc_lookup f d = Some v -> Q f v) ->
    forall f v, assoc_lookup f d' = Some v -> Q f v.
Proof.
  intros HQ.
  induction features as [|a rest IH]; intros d g d' g'; simpl.
  - by intros [= <- <-].
  - destruct (feature_drift r model base df y a g) as [[drift|e] g1] eqn:Hd;
      [|discriminate].
    intros Hloop Hin. eapply IH; [exact Hloop|].
    intros f v. destruct (decide (f = a)) as [->|Hne].
    + rewrite assoc_set_lookup. intros [= <-]. apply (HQ a g). by rewrite Hd.
    + rewrite assoc_set_lookup_ne by done. apply Hin.
Qed.

Lemma find_all_variables_in df v features :
  _find_all_variables df v = Ok features ->
  forall f, f ∈ features -> f ∈ column_names df.
Proof.
  unfold _find_all_variables. destruct v as [[|a l]|].
  - by intros [= <-].
  - destruct (List.find _ (a :: l)) eqn:E; [discriminate|].
    intros [= <-]. by apply find_absent_None.
  - by intros [= <-].
Qed.


Lemma find_all_variables_Ok df v :
  (forall names, v = Some names -> forall f, f ∈ names -> f ∈ column_names df) ->
  exists features, _find_all_variables df v = Ok features.
Proof.
  intros H. unfold _find_all_variables. destruct v as [[|a l]|]; eauto.
  specialize (H (a :: l) eq_refl). apply find_absent_None in H. rewrite H. eauto.
Qed.

Lemma getitem_Ok df f :
  f ∈ column_names df -> exists col, getitem df f = Ok col.
Proof.
  intros H. unfold getitem.
  destruct (assoc_lookup_names _ _ H) as [v ->]. eauto.
Qed.

Lemma drifts_loop_Ok r model base df y features :
  (forall f g, f ∈ features ->
     is_Ok (feature_drift r model base df y f g).1 = true) ->
  forall d g, exists d' g',
    drifts_loop r model base df y features d g = (Ok tt, d', g').
Proof.
  induction features as [|a rest IH]; intros H d g; simpl; [eauto|].
  pose proof (H a g (list_elem_of_here _ _)) as Ha.
  destruct (feature_drift r model base df y a g) as [[drift|] g1];
    [|discriminate].
  apply IH. intros f g0 Hf. apply H. by apply list_elem_of_further.
Qed.

Lemma fit_heap (w : world G) X y :
  heap w ⊆ heap (fit X y w).2 /\ heap (fit X y w).2 !! X = heap w !! X.
Proof.
  destruct (heap w !! X) as [[df|]|] eqn:E.
  - destruct w as [s h g]. simpl in *.
    destruct (fit_run s h g X df y E) as (h' & Hsub & ->).
    destruct (fit_values s df y g) as [[r s'] g']. simpl.
    split; [done|]. by eapply lookup_weaken.
  - rewrite fit_not_frame by (intros df; rewrite E; discriminate). done.
  - rewrite fit_not_frame by (intros df; rewrite E; discriminate). done.
Qed.

Lemma transform_not_frame (w : world G) X :
  (forall df, heap w !! X <> Some (ODataFrame df)) ->
  (transform X w).2 = w /\ exists e, (transform X w).1 = Raise e.
Proof.
  intros H. unfold transform, check_is_fitted, _is_dataframe, copy, bind,
    get_self, frame_of, raise, ret. simpl.
  destruct (features_performance_drifts_ (self w)); simpl; [|eauto].
  destruct (heap w !! X) as [[df|]|]; [by destruct (H df)|eauto..].
Qed.

Lemma transform_heap (w : world G) X :
  heap w ⊆ heap (transform X w).2
  /\ heap (transform X w).2 !! X = heap w !! X
  /\ (forall l, (transform X w).1 = Ok l -> heap w !! l = None).
Proof.
  destruct (heap w !! X) as [[df|]|] eqn:E.
  - destruct w as [s h g]. simpl in *.
    destruct (transform_run s h g X df E) as (h' & r & Hsub & -> & Hres). simpl.
    split; [done|]. split; [by eapply lookup_weaken|].
    intros l ->. destruct (transform_values s df); [|discriminate].
    by destruct Hres as (l' & [= <-] & Hnone & _).
  - destruct (transform_not_frame w X) as [-> [e ->]];
      [intros df; rewrite E; discriminate|]. done.
  - destruct (transform_not_frame w X) as [-> [e ->]];
      [intros df; rewrite E; discriminate|]. done.
Qed.

Lemma transform_unfitted (w : world G) X :
  features_performance_drifts_ (self w) = None ->
  transform X w = (Raise not_fitted, w).
Proof.
  intros H. unfold transform, check_is_fitted, bind, get_self, raise. simpl.
  by rewrite H.
Qed.

Lemma transform_frame_Ok (s : ShuffleFeatures G) h g X df d :
  h !! X = Some (ODataFrame df) ->
  features_performance_drifts_ s = Some d ->
  (forall f, f ∈ d.*1 -> f ∈ column_names df) ->
  exists h' l,
    h ⊆ h'
    /\ transform X (Build_world s h g) = (Ok l, Build_world s h' g)
    /\ h !! l = None
    /\ h' !! l
       = Some (ODataFrame
                 {| index := index df;
                    columns :=
                      List.filter
                        (fun cv => negb (name_in (columns_to_drop s d) cv.1))
                        (columns df) |}).
Proof.
  intros HX Hd Hcols.
  destruct (transform_run s h g X df HX) as (h' & r & Hsub & Hrun & Hres).
  unfold transform_values in Hres. rewrite Hd in Hres.
  rewrite drop_Ok in Hres.
  2:{ intros c Hc. apply Hcols. apply columns_to_drop_spec in Hc as (drift & Hin & _).
      apply list_elem_of_fmap. by exists (c, drift). }
  destruct Hres as (l & -> & Hfresh & Hl). by exists h', l.
Qed.

Lemma baseline_ext (s1 s2 : ShuffleFeatures G) df y g :
  estimator s1 = estimator s2 -> regression s1 = regression s2 ->
  baseline s1 df y g = baseline s2 df y g.
Proof. unfold baseline. by intros -> ->. Qed.

Lemma fit_values_with_cv_scoring (s : ShuffleFeatures G) c sc df y g :
  fit_values (with_cv_scoring s c sc) df y g
  = (let '(r, s', g') := fit_values s df y g in (r, with_cv_scoring s' c sc, g')).
Proof.
  unfold fit_values. simpl.
  destruct (_find_all_variables df (features_to_shuffle s)) as [features|];
    [|reflexivity].
  rewrite (baseline_ext _ (with_features s features)) by reflexivity.
  destruct (baseline (with_features s features) df y g)
    as [[[model base]|] g1]; [|reflexivity].
  simpl.
  destruct (drifts_loop (regression s) model base df y features [] g1)
    as [[r d] g2]. reflexivity.
Qed.

Lemma transform_values_with_cv_scoring (s : ShuffleFeatures G) c sc df :
  transform_values (with_cv_scoring s c sc) df = transform_values s df.
Proof. reflexivity. Qed.

Lemma init_with_cv_scoring reg c1 c2 t feats (e : option (Estimator G)) sc1 sc2 s1 s2 :
  __init__ reg (Some (PyBool c1)) t feats e sc1 = Ok s1 ->
  __init__ reg (Some (PyBool c2)) t feats e sc2 = Ok s2 ->
  s2 = with_cv_scoring s1 c2 (scoring s2).
Proof.
  unfold __init__. simpl. destruct reg; try discriminate.
  by intros [= <-] [= <-].
Qed.


End Steps.

(** * The claims *)

(** C1.  After a successful [fit], the drift recorded for each resolved
    feature is the baseline performance minus the shuffled performance.
    The baseline is the constant 1 when the caller supplied an estimator;
    without one it is the mean squared error of the predictions of the
    trained default regressor when [regression] is true, and the area under
    the curve of the positive-class probabilities of the trained default
    classifier otherwise.  The shuffled performance is the metric of the
    mode ([performance]), computed with the trained model on a frame in
    which the feature was shuffled. *)
Theorem drift_is_baseline_minus_shuffled {G : Type} `{!RandomState G}
    `{!Sklearn G} (w w' : world G) (X : loc) (y : list float) :
  fit X y w = (Ok tt, w') ->
  let s := self w in
  exists df features d model base,
    heap w !! X = Some (ODataFrame df)
    /\ features_to_shuffle (self w') = Some features
    /\ features_performance_drifts_ (self w') = Some d
    /\ match estimator s with
       | Some est =>
           (est_fit est df y (rng w)).1 = Ok model /\ base = 1%float
       | None =>
           if regression s then
             (est_fit RandomForestRegressor df y (rng w)).1 = Ok model
             /\ exists y_pred,
                  predict model df = Ok y_pred
                  /\ mean_squared_error y y_pred = Ok base
           else
             (est_fit RandomForestClassifier df y (rng w)).1 = Ok model
             /\ exists proba y_pred,
                  predict_proba model df = Ok proba
                  /\ slice_column proba 1 = Ok y_pred
                  /\ roc_auc_score y y_pred = Ok base
       end
    /\ forall f, f ∈ features ->
         exists g_f df_f shuffled,
           (shuffled_frame df f g_f).1 = Ok df_f
           /\ performance (regression s) model df_f y = Ok shuffled
           /\ assoc_lookup f d = Some (PrimFloat.sub base shuffled).
Proof.
  intros Hfit s. destruct (fit_Ok_frame _ _ _ _ Hfit) as [df HX].
  destruct w as [s0 h g]. simpl in *. subst s.
  destruct (fit_run s0 h g X df y HX) as (h' & Hsub & Hrun).
  rewrite Hfit in Hrun.
  destruct (fit_values s0 df y g) as [[r s'] g'] eqn:Hv.
  injection Hrun as <- ->.
  apply fit_values_Ok_inv in Hv
    as (features & model & base & g1 & d & Hres & Hbase & Hloop & ->).
  exists df, features, d, model, base. simpl.
  split; [done|]. split; [done|]. split; [done|]. split.
  - clear Hloop. unfold baseline in Hbase. simpl in Hbase.
    destruct (estimator s0) as [est|].
    + destruct (est_fit est df y g) as [[m|] g2]; [|discriminate].
      destruct (predict m df); [|discriminate].
      by injection Hbase as -> <- _.
    + unfold performance in Hbase. destruct (regression s0).
      * destruct (est_fit RandomForestRegressor df y g) as [[m|] g2];
          [|discriminate].
        destruct (predict m df) as [y_pred|] eqn:Hp; [|discriminate].
        destruct (mean_squared_error y y_pred) as [p|] eqn:Hm; [|discriminate].
        injection Hbase as -> -> _. split; [done|]. by exists y_pred.
      * destruct (est_fit RandomForestClassifier df y g) as [[m|] g2];
          [|discriminate].
        destruct (predict_proba m df) as [proba|] eqn:Hp; [|discriminate].
        destruct (slice_column proba 1) as [y_pred|] eqn:Hs; [|discriminate].
        destruct (roc_auc_score y y_pred) as [p|] eqn:Hm; [|discriminate].
        injection Hbase as -> -> _. split; [done|]. by exists proba, y_pred.
  - intros f Hf.
    assert (f ∈ d.*1) as Hkey.
    { apply (drifts_loop_keys _ _ _ _ _ _ _ _ _ _ Hloop f). by right. }
    destruct (assoc_lookup_names _ _ Hkey) as [v Hv].
    pose proof (drifts_loop_values (regression s0) model base df y features
      (fun f v => exists g_f df_f shuffled,
         (shuffled_frame df f g_f).1 = Ok df_f
         /\ performance (regression s0) model df_f y = Ok shuffled
         /\ v = PrimFloat.sub base shuffled)) as Hvals.
    destruct (Hvals (feature_drift_inv _ _ _ _ _) [] g1 d g' Hloop) with f v
      as (g_f & df_f & shuffled & Hsh & Hperf & ->); [by intros ? ? [=] | done |].
    by exists g_f, df_f, shuffled.
Qed.

Lemma drift_is_baseline_minus_shuffled_witness :
  fit 1%positive Toy.target_ab (Toy.world_ab (Toy.selector true NoVariables None))
  = (Ok tt, Toy.fitted_ab)
  /\ exists d base shuffled,
       features_performance_drifts_ (self Toy.fitted_ab) = Some d
       /\ assoc_lookup "a" d = Some (PrimFloat.sub base shuffled).
Proof.
  assert (fit 1%positive Toy.target_ab
            (Toy.world_ab (Toy.selector true NoVariables None))
          = (Ok tt, Toy.fitted_ab)) as Hfit by (vm_compute; reflexivity).
  split; [exact Hfit|].
  destruct (drift_is_baseline_minus_shuffled _ _ _ _ Hfit)
    as (df & features & d & model & base & _ & Hf & Hd & _ & Hall).
  assert (features = ["a"; "b"]%string) as ->
    by (vm_compute in Hf; congruence).
  destruct (Hall "a"%string) as (g_f & df_f & shuffled & _ & _ & Hlook);
    [apply list_elem_of_here|].
  exists d, base, shuffled. split; [exact Hd | exact Hlook].
Defined.

(** C2.  For a fitted selector and a frame [X] that contains the fitted
    features, [transform] drops exactly the features whose recorded drift
    is [>= threshold] when [regression] is true and exactly those whose
    drift is [<= threshold] otherwise; a feature whose drift equals the
    threshold is dropped in either mode.  It returns a new frame with the
    rows of [X] and the columns that were not dropped, in their order. *)
Theorem transform_drops_by_threshold {G : Type} `{!RandomState G}
    `{!Sklearn G} (w : world G) (X : loc) (df : DataFrame)
    (d : list (string * float)) :
  heap w !! X = Some (ODataFrame df) ->
  features_performance_drifts_ (self w) = Some d ->
  (forall f, f ∈ d.*1 -> f ∈ column_names df) ->
  let s := self w in
  let dropped f :=
    exists drift, (f, drift) ∈ d /\
      (if regression s then PrimFloat.leb (threshold s) drift
       else PrimFloat.leb drift (threshold s)) = true in
  exists l w' df',
    transform X w = (Ok l, w')
    /\ heap w' !! l = Some (ODataFrame df')
    /\ index df' = index df
    /\ (forall cv, cv ∈ columns df' <-> cv ∈ columns df /\ ~ dropped cv.1)
    /\ sublist (columns df') (columns df)
    /\ (forall f drift, (f, drift) ∈ d ->
          PrimFloat.eqb drift (threshold s) = true -> dropped f).
Proof.
  intros HX Hd Hcols s dropped. destruct w as [s0 h g]. simpl in *. subst s.
  destruct (transform_frame_Ok s0 h g X df d HX Hd Hcols)
    as (h' & l & Hsub & Hrun & Hfresh & Hl).
  eexists l, _, _. split; [exact Hrun|]. simpl.
  split; [exact Hl|]. split; [done|].
  assert (forall f, f ∈ columns_to_drop s0 d <-> dropped f) as Hdrop.
  { intros f. apply columns_to_drop_spec. }
  split; [|split].
  - intros cv. rewrite <- Hdrop, <- name_in_spec.
    cbn [columns]. rewrite !list_elem_of_In, List.filter_In, negb_true_iff.
    destruct (name_in (columns_to_drop s0 d) cv.1); split; intros [? ?]; split;
      try done; congruence.
  - apply List_filter_sublist.
  - intros f drift Hin Heq. exists drift. split; [done|].
    apply float_eqb_leb in Heq as [H1 H2]. by destruct (regression s0).
Qed.

Lemma transform_drops_by_threshold_witness :
  heap Toy.fitted_ab !! 1%positive = Some (ODataFrame Toy.frame_ab)
  /\ exists l w' df',
       transform 1%positive Toy.fitted_ab = (Ok l, w')
       /\ heap w' !! l = Some (ODataFrame df')
       /\ index df' = index Toy.frame_ab.
Proof.
  assert (heap Toy.fitted_ab !! 1%positive = Some (ODataFrame Toy.frame_ab))
    as HX by (vm_compute; reflexivity).
  split; [exact HX|].
  destruct (transform_drops_by_threshold Toy.fitted_ab 1%positive Toy.frame_ab
              (default [] (features_performance_drifts_ (self Toy.fitted_ab))) HX)
    as (l & w' & df' & Htr & Hl & Hidx & _).
  - vm_compute; reflexivity.
  - intros f Hf. vm_compute in Hf. vm_compute. exact Hf.
  - exists l, w', df'. split; [exact Htr|]. split; [exact Hl | exact Hidx].
Defined.

(** C3.  The constructor raises its configuration error ([ValueError]) if
    and only if [regression] is not a boolean or [cv] is not a boolean, and
    it fails in no other way.  With [cv] left at its default, 3, it always
    fails; a construction that succeeds received booleans for both. *)
Theorem init_fails_iff_not_boolean {G : Type} (reg : pyval)
    (cv_arg : option pyval) (t : option float) (feats : variables)
    (est : option (Estimator G)) (sc : option string) :
  let built := __init__ reg cv_arg t feats est sc in
  let not_boolean :=
    isinstance_bool reg = false
    \/ isinstance_bool (default (PyInt 3) cv_arg) = false in
  ((exists msg, built = Raise (ValueError msg)) <-> not_boolean)
  /\ (is_Ok built = false <-> not_boolean)
  /\ (cv_arg = None -> exists msg, built = Raise (ValueError msg))
  /\ (forall s, built = Ok s ->
        exists r c, reg = PyBool r /\ cv_arg = Some (PyBool c)
                    /\ regression s = r /\ cv s = c).
Proof.
  unfold __init__.
  destruct cv_arg as [[| c | | |]|], reg as [| r | | |]; simpl;
    repeat split; intros; try discriminate; try tauto; eauto;
    repeat match goal with
           | H : _ \/ _ |- _ => destruct H
           | H : exists _, _ |- _ => destruct H
           end; try discriminate.
  all: try match goal with H : Ok _ = Ok _ |- _ => injection H as <- end; eauto.
  all: try (right; reflexivity); try (left; reflexivity).
  by exists r, c.
Qed.

(** C4.  The claim is that the frame used to recompute the performance
    differs from [X] in the column of the feature only and holds there a
    permutation of the column's own values, for every input frame.  The
    code re-labels the shuffled series 0, 1, 2, ... and the assignment
    aligns it on the row labels of [X]: on the frame with the rows
    labelled 1, 2, 3 the row 3 finds no value.  Run on that frame, [fit]
    leaves behind the shuffled copy (address 3) with the column
    [2; 1; nan], which is not a permutation of [1; 2; 3]; and whatever the
    random state draws, the last cell of the shuffled column is [nan]. *)
Theorem shuffle_loses_values_off_default_index {G : Type} `{!RandomState G}
    (g : G) :
  (let w :=
     (fit 1%positive Toy.target_ab
        (Toy.start (Toy.selector true NoVariables None)
           [ODataFrame Toy.frame_ab_from_1] 42)).2 in
   heap w !! 1%positive = Some (ODataFrame Toy.frame_ab_from_1)
   /\ heap w !! 3%positive
      = Some (ODataFrame
                {| index := [1; 2; 3]%Z;
                   columns := [("a"%string, [2; 1; nan]%float);
                               ("b"%string, [0; 0; 0]%float)] |}))
  /\ assoc_lookup "a" (columns Toy.frame_ab_from_1) = Some [1; 2; 3]%float
  /\ exists a b,
       (shuffled_frame Toy.frame_ab_from_1 "a" g).1
       = Ok {| index := [1; 2; 3]%Z;
               columns := [("a"%string, [a; b; nan]);
                           ("b"%string, [0; 0; 0]%float)] |}
       /\ ~ [a; b; nan] ≡ₚ [1; 2; 3]%float.
Proof.
  split; [split; vm_compute; reflexivity|].
  split; [reflexivity|].
  destruct (shuffle_off_default_index g) as (a & b & Hsh).
  exists a, b. split; [exact Hsh | apply nan_not_in_123].
Qed.




(** C6 (as the code has it).  A selector as the constructor built it
    refuses [transform] with the unfitted-state error, for every input;
    and it still does after a [fit] that raised before it reached the loop
    over the features, that is, in the validation of [X], in the resolution
    of the features or in the training and scoring of the model. *)
Theorem transform_before_fit_fails {G : Type} `{!RandomState G}
    `{!Sklearn G} (reg : pyval) (cv : option pyval) (t : option float)
    (feats : variables) (e : option (Estimator G)) (sc : option string)
    (s : ShuffleFeatures G) :
  __init__ reg cv t feats e sc = Ok s ->
  forall (h : gmap loc object) (g : G) (X : loc),
    transform X (Build_world s h g) = (Raise not_fitted, Build_world s h g)
    /\ forall (X0 : loc) (y : list float),
         (forall df, h !! X0 = Some (ODataFrame df) ->
                     fit_reaches_loop s df y g = false) ->
         let o := fit X0 y (Build_world s h g) in
         is_Ok o.1 = false /\ transform X o.2 = (Raise not_fitted, o.2).
Proof.
  intros Hinit.
  assert (features_performance_drifts_ s = None) as Hnone.
  { unfold __init__ in Hinit.
    destruct (default (PyInt 3) cv); try discriminate.
    destruct reg; try discriminate. by injection Hinit as <-. }
  intros h g X. split; [by apply transform_unfitted|].
  intros X0 y Hstop o. subst o.
  destruct (h !! X0) as [[df|]|] eqn:E.
  - specialize (Hstop df eq_refl). unfold fit_reaches_loop in Hstop.
    destruct (fit_run s h g X0 df y E) as (h' & _ & ->).
    unfold fit_values.
    destruct (_find_all_variables df (features_to_shuffle s)) as [features|].
    + destruct (baseline (with_features s features) df y g)
        as [[[model base]|] g1]; [discriminate|].
      simpl. split; [done|]. by apply transform_unfitted.
    + simpl. split; [done|]. by apply transform_unfitted.
  - rewrite fit_not_frame by (intros df; simpl; rewrite E; discriminate).
    split; [done|]. by apply transform_unfitted.
  - rewrite fit_not_frame by (intros df; simpl; rewrite E; discriminate).
    split; [done|]. by apply transform_unfitted.
Qed.

Lemma transform_before_fit_fails_witness :
  __init__ (PyBool true) (Some (PyBool true)) None NoVariables None None
  = Ok (Toy.selector true NoVariables None)
  /\ transform 1%positive (Toy.world_ab (Toy.selector true NoVariables None))
     = (Raise not_fitted, Toy.world_ab (Toy.selector true NoVariables None)).
Proof.
  split; [reflexivity|].
  exact (proj1 (transform_before_fit_fails
                  (PyBool true) (Some (PyBool true)) None NoVariables None None
                  (Toy.selector true NoVariables None) eq_refl
                  (heap (Toy.world_ab (Toy.selector true NoVariables None)))
                  42%N 1%positive)).
Defined.

(** C6 as the claim states it fails: a classification selector given a
    regressor trains it, creates the empty mapping and raises at the first
    feature, for want of [predict_proba]; [fit] has not completed, yet
    [transform] passes the guard and returns a frame. *)
Lemma transform_after_interrupted_fit_succeeds :
  let s := Toy.selector false NoVariables (Some Toy.sum_regressor) in
  let o := fit 1%positive [1; 1; 0]%float (Toy.world_ab s) in
  __init__ (PyBool false) (Some (PyBool true)) None NoVariables
    (Some Toy.sum_regressor) None = Ok s
  /\ o.1 = Raise (AttributeError "predict_proba")
  /\ features_performance_drifts_ (self o.2) = Some []
  /\ exists l w2,
       transform 1%positive o.2 = (Ok l, w2)
       /\ heap w2 !! l = Some (ODataFrame Toy.frame_ab).
Proof.
  split; [reflexivity|].
  split; [vm_compute; reflexivity|].
  split; [vm_compute; reflexivity|].
  eexists _, _. split; vm_compute; reflexivity.
Qed.

(** C7 (as the code has it).  When [X] is a frame, the named features are
    columns of [X], the estimator is fitted and scored on [X] without an
    error, and the model and the metric succeed on every shuffled copy of
    [X], then [fit] followed by [transform] raises nothing and returns a
    frame. *)
Theorem fit_then_transform_succeeds {G : Type} `{!RandomState G}
    `{!Sklearn G} (s : ShuffleFeatures G) (h : gmap loc object) (g g1 : G)
    (X : loc) (df : DataFrame) (y : list float) (model : Model)
    (base : float) :
  h !! X = Some (ODataFrame df) ->
  (forall names, features_to_shuffle s = Some names ->
     forall f, f ∈ names -> f ∈ column_names df) ->
  baseline s df y g = (Ok (model, base), g1) ->
  (forall f g_f df_f,
     f ∈ column_names df ->
     (shuffled_frame df f g_f).1 = Ok df_f ->
     is_Ok (performance (regression s) model df_f y) = true) ->
  exists w1 l w2 out,
    fit X y (Build_world s h g) = (Ok tt, w1)
    /\ transform X w1 = (Ok l, w2)
    /\ heap w2 !! l = Some (ODataFrame out).
Proof.
  intros HX Hnames Hbase Hperf.
  destruct (find_all_variables_Ok df _ Hnames) as [features Hres].
  pose proof (find_all_variables_in _ _ _ Hres) as Hin.
  destruct (drifts_loop_Ok (regression s) model base df y features) with
    (d := @nil (string * float)) (g := g1) as (d & g2 & Hloop).
  { intros f g0 Hf. unfold feature_drift.
    destruct (getitem_Ok df f (Hin f Hf)) as [col Hcol].
    pose proof (Hperf f g0) as Hp. unfold shuffled_frame in *.
    rewrite Hcol in *. destruct (sample_frac1 col g0) as [sampled g'].
    specialize (Hp _ (Hin f Hf) eq_refl).
    by destruct (performance (regression s) model _ y). }
  destruct (fit_run s h g X df y HX) as (h1 & Hsub & Hfit).
  unfold fit_values in Hfit. rewrite Hres in Hfit.
  rewrite (baseline_ext _ s) in Hfit by done. rewrite Hbase in Hfit.
  simpl in Hfit. rewrite Hloop in Hfit.
  destruct (transform_frame_Ok (with_drifts (with_features s features) d)
              h1 g2 X df d) as (h2 & l & _ & Htr & _ & Hl).
  - by eapply lookup_weaken.
  - done.
  - intros f Hf. apply Hin.
    apply (drifts_loop_keys _ _ _ _ _ _ _ _ _ _ Hloop f) in Hf as [Hf|Hf];
      [by apply elem_of_nil in Hf | done].
  - eexists _, l, _, _. split; [exact Hfit|]. split; [exact Htr | exact Hl].
Qed.

Lemma fit_then_transform_succeeds_witness :
  let s := Toy.selector true (VariableList ["a"; "b"]%string)
             (Some Toy.mean_regressor) in
  heap (Toy.world_ab s) !! 1%positive = Some (ODataFrame Toy.frame_ab)
  /\ baseline s Toy.frame_ab Toy.target_ab 42%N
     = (Ok (Toy.constant_model 2, 1%float), 42%N)
  /\ exists w1 l w2 out,
       fit 1%positive Toy.target_ab (Toy.world_ab s) = (Ok tt, w1)
       /\ transform 1%positive w1 = (Ok l, w2)
       /\ heap w2 !! l = Some (ODataFrame out).
Proof.
  split; [vm_compute; reflexivity|].
  split; [vm_compute; reflexivity|].
  apply (fit_then_transform_succeeds
           (Toy.selector true (VariableList ["a"; "b"]%string)
              (Some Toy.mean_regressor))
           (heap (Toy.world_ab (Toy.selector true NoVariables None)))
           42%N 42%N 1%positive Toy.frame_ab Toy.target_ab
           (Toy.constant_model 2) 1%float).
  - vm_compute; reflexivity.
  - intros names [= <-] f Hf. exact Hf.
  - vm_compute; reflexivity.
  - intros f g_f df_f _ Hsh.
    apply shuffled_frame_inv in Hsh as (vals & _ & ->).
    reflexivity.
Defined.

(** C7 as the claim states it fails: [X] is a frame and the named features
    are its columns, but the target holds one class only, so the
    probabilities of the default classifier have a single column and the
    slice [[:, 1]] of line 137 raises. *)
Lemma fit_raises_on_single_class_target :
  let s := Toy.selector false (VariableList ["a"; "b"]%string) None in
  __init__ (PyBool false) (Some (PyBool true)) None
    (VariableList ["a"; "b"]%string) None None = Ok s
  /\ heap (Toy.world_ab s) !! 1%positive = Some (ODataFrame Toy.frame_ab)
  /\ _find_all_variables Toy.frame_ab (features_to_shuffle s)
     = Ok ["a"; "b"]%string
  /\ (fit 1%positive [1; 1; 1]%float (Toy.world_ab s)).1
     = Raise (IndexError "index is out of bounds for axis 1").
Proof.
  split; [reflexivity|].
  split; [vm_compute; reflexivity|].
  split; vm_compute; reflexivity.
Qed.



(** C9.  [scoring] and [cv] have no effect.  Two selectors built with the
    same [regression], [threshold], [features_to_shuffle] and [estimator]
    but other [scoring] strings or boolean [cv] values give, on the same
    inputs and random state, the same outcome of [fit], the same resolved
    features and drift mapping and the same random state, and [transform]
    then returns the same frame, or raises the same error. *)
Theorem scoring_and_cv_are_ignored {G : Type} `{!RandomState G}
    `{!Sklearn G} (reg : pyval) (c1 c2 : bool) (t : option float)
    (feats : variables) (e : option (Estimator G)) (sc1 sc2 : option string)
    (s1 s2 : ShuffleFeatures G) (h : gmap loc object) (g : G) (X : loc)
    (y : list float) (X' : loc) (df' : DataFrame) :
  __init__ reg (Some (PyBool c1)) t feats e sc1 = Ok s1 ->
  __init__ reg (Some (PyBool c2)) t feats e sc2 = Ok s2 ->
  h !! X' = Some (ODataFrame df') ->
  let o1 := fit X y (Build_world s1 h g) in
  let o2 := fit X y (Build_world s2 h g) in
  let t1 := transform X' o1.2 in
  let t2 := transform X' o2.2 in
  o1.1 = o2.1
  /\ features_to_shuffle (self o1.2) = features_to_shuffle (self o2.2)
  /\ features_performance_drifts_ (self o1.2)
     = features_performance_drifts_ (self o2.2)
  /\ rng o1.2 = rng o2.2
  /\ match t1.1, t2.1 with
     | Ok l1, Ok l2 =>
         exists out, heap t1.2 !! l1 = Some (ODataFrame out)
                     /\ heap t2.2 !! l2 = Some (ODataFrame out)
     | Raise e1, Raise e2 => e1 = e2
     | _, _ => False
     end.
Proof.
  intros H1 H2 HX' o1 o2 t1 t2.
  pose proof (init_with_cv_scoring _ _ _ _ _ _ _ _ _ _ H1 H2) as Hs2.
  set (sc := scoring s2) in Hs2. clearbody sc. subst s2.
  assert (exists r s' g' h1 h2,
            o1 = (r, Build_world s' h1 g')
            /\ o2 = (r, Build_world (with_cv_scoring s' c2 sc) h2 g')
            /\ h ⊆ h1 /\ h ⊆ h2) as (r & s' & g' & h1 & h2 & E1 & E2 & Hh1 & Hh2).
  { subst o1 o2. destruct (h !! X) as [[df|]|] eqn:E.
    - destruct (fit_run s1 h g X df y E) as (h1 & Hsub1 & ->).
      destruct (fit_run (with_cv_scoring s1 c2 sc) h g X df y E)
        as (h2 & Hsub2 & ->).
      rewrite fit_values_with_cv_scoring.
      destruct (fit_values s1 df y g) as [[r s'] g'].
      by exists r, s', g', h1, h2.
    - rewrite !fit_not_frame by (intros df; simpl; rewrite E; discriminate).
      by eexists _, s1, g, h, h.
    - rewrite !fit_not_frame by (intros df; simpl; rewrite E; discriminate).
      by eexists _, s1, g, h, h. }
  subst t1 t2. rewrite E1, E2. simpl.
  split; [done|]. split; [done|]. split; [done|]. split; [done|].
  destruct (transform_run s' h1 g' X' df') as (h1' & r1 & _ & -> & Hr1);
    [by eapply lookup_weaken|].
  destruct (transform_run (with_cv_scoring s' c2 sc) h2 g' X' df')
    as (h2' & r2 & _ & -> & Hr2); [by eapply lookup_weaken|].
  rewrite transform_values_with_cv_scoring in Hr2. simpl.
  destruct (transform_values s' df') as [out|err].
  - destruct Hr1 as (l1 & -> & _ & Hl1). destruct Hr2 as (l2 & -> & _ & Hl2).
    by exists out.
  - by subst.
Qed.

Lemma scoring_and_cv_are_ignored_witness :
  let s1 := Toy.selector true NoVariables None in
  let s2 := with_cv_scoring s1 false "r2" in
  __init__ (PyBool true) (Some (PyBool true)) None NoVariables None None = Ok s1
  /\ __init__ (PyBool true) (Some (PyBool false)) None NoVariables None
       (Some "r2"%string) = Ok s2
  /\ features_performance_drifts_
       (self (fit 1%positive Toy.target_ab (Toy.world_ab s1)).2)
     = features_performance_drifts_
         (self (fit 1%positive Toy.target_ab (Toy.world_ab s2)).2).
Proof.
  split; [reflexivity|]. split; [reflexivity|].
  refine (proj1 (proj2 (proj2
    (scoring_and_cv_are_ignored
       (PyBool true) true false None NoVariables None None (Some "r2"%string)
       (Toy.selector true NoVariables None)
       (with_cv_scoring (Toy.selector true NoVariables None) false "r2")
       (heap (Toy.world_ab (Toy.selector true NoVariables None))) 42%N
       1%positive Toy.target_ab 1%positive Toy.frame_ab
       eq_refl eq_refl _)))).
  vm_compute; reflexivity.
Defined.

(** C10.  Neither [fit] nor [transform] mutates the frame of the caller:
    every object of the store is, after the call, what it was before, the
    frame behind [X] included, whether the call returns or raises; and the
    frame that [transform] returns is a new object. *)
Theorem input_frame_is_not_mutated {G : Type} `{!RandomState G}
    `{!Sklearn G} (w : world G) (X : loc) (y : list float) :
  heap w ⊆ heap (fit X y w).2
  /\ heap (fit X y w).2 !! X = heap w !! X
  /\ heap w ⊆ heap (transform X w).2
  /\ heap (transform X w).2 !! X = heap w !! X
  /\ (forall l, (transform X w).1 = Ok l -> heap w !! l = None).
Proof.
  destruct (fit_heap w X y) as [H1 H2].
  destruct (transform_heap w X) as (H3 & H4 & H5). done.
Qed.

(** X1.  On a frame whose rows carry the labels [0 .. n-1], in any order,
    and whose columns have one cell per row, the shuffled frame differs from
    the frame in the column of the feature only, and that column holds its
    own values in another order. *)
Theorem shuffle_permutes_on_default_index {G : Type} `{!RandomState G}
    (df : DataFrame) (f : string) (g : G) (df_f : DataFrame) :
  index df ≡ₚ RangeIndex (length (index df)) ->
  (forall c vals, (c, vals) ∈ columns df -> length vals = length (index df)) ->
  (shuffled_frame df f g).1 = Ok df_f ->
  index df_f = index df
  /\ column_names df_f = column_names df
  /\ (forall c, c <> f ->
        assoc_lookup c (columns df_f) = assoc_lookup c (columns df))
  /\ exists vals vals',
       assoc_lookup f (columns df) = Some vals
       /\ assoc_lookup f (columns df_f) = Some vals'
       /\ vals' ≡ₚ vals.
Proof.
  intros Hidx Hlen Hsh.
  apply shuffled_frame_inv in Hsh as (vals & Hvals & ->).
  set (col := {| s_index := index df; s_values := vals |}).
  unfold setitem, column_names. simpl.
  split; [done|]. split.
  { apply assoc_set_names. by eapply assoc_lookup_Some_names. }
  split.
  { intros c Hc. by apply assoc_set_lookup_ne. }
  exists vals. eexists. split; [done|]. split; [apply assoc_set_lookup|].
  etrans; [|apply (sample_frac1_Permutation col g)].
  apply reindex_reset_Permutation.
  rewrite sample_frac1_length. simpl.
  rewrite (Hlen f vals) by by apply assoc_lookup_elem. done.
Qed.

Lemma shuffle_permutes_on_default_index_witness :
  (shuffled_frame Toy.frame_ab "a" 42%N).1
  = Ok {| index := [0; 1; 2]%Z;
          columns := [("a"%string, [3; 2; 1]%float);
                      ("b"%string, [0; 0; 0]%float)] |}
  /\ exists vals vals',
       assoc_lookup "a" (columns Toy.frame_ab) = Some vals
       /\ vals' = [3; 2; 1]%float
       /\ vals' ≡ₚ vals.
Proof.
  assert ((shuffled_frame Toy.frame_ab "a" 42%N).1
          = Ok {| index := [0; 1; 2]%Z;
                  columns := [("a"%string, [3; 2; 1]%float);
                              ("b"%string, [0; 0; 0]%float)] |}) as Hsh
    by (vm_compute; reflexivity).
  split; [exact Hsh|].
  assert (index Toy.frame_ab ≡ₚ RangeIndex (length (index Toy.frame_ab)))
    as Hidx by reflexivity.
  assert (forall c vals, (c, vals) ∈ columns Toy.frame_ab ->
                         length vals = length (index Toy.frame_ab)) as Hlen.
  { intros c vals Hin. vm_compute in Hin.
    repeat (apply elem_of_cons in Hin as [[= -> ->]|Hin]; [reflexivity|]).
    by apply elem_of_nil in Hin. }
  destruct (shuffle_permutes_on_default_index Toy.frame_ab "a" 42%N _
              Hidx Hlen Hsh) as (_ & _ & _ & vals & vals' & Hv & Hv' & Hp).
  exists vals, vals'. split; [exact Hv|]. split; [|exact Hp].
  simpl in Hv'. by injection Hv' as <-.
Defined.

(** * Further properties of [fit] and [transform] *)

(** ** More on the comparisons of floats *)

Lemma SFcompare_nan_r x : SFcompare x S754_nan = None.
Proof. by destruct x. Qed.

Lemma SFcompare_refl_not_nan x : x <> S754_nan -> SFcompare x x = Some Eq.
Proof.
  destruct x as [s|s| |s m e]; simpl; try done.
  - by destruct s.
  - intros _. destruct s; rewrite Z.compare_refl, Pos.compare_cont_refl; done.
Qed.

(** A float that differs from itself is the NaN. *)
Lemma float_is_nan x : PrimFloat.eqb x x = false -> Prim2SF x = S754_nan.
Proof.
  rewrite FloatAxioms.eqb_spec. unfold SFeqb. intros H.
  destruct (Prim2SF x) as [s|s| |s m e] eqn:E; [| |done|];
    rewrite SFcompare_refl_not_nan in H by done; discriminate.
Qed.

Lemma float_leb_nan_l x y : PrimFloat.eqb x x = false -> PrimFloat.leb x y = false.
Proof.
  intros H. rewrite FloatAxioms.leb_spec, (float_is_nan x H). reflexivity.
Qed.

Lemma float_leb_nan_r x y : PrimFloat.eqb y y = false -> PrimFloat.leb x y = false.
Proof.
  intros H. rewrite FloatAxioms.leb_spec, (float_is_nan y H).
  unfold SFleb. by rewrite SFcompare_nan_r.
Qed.

Lemma SFleb_trans a b c :
  SFleb a b = true -> SFleb b c = true -> SFleb a c = true.
Proof.
  unfold SFleb, SFcompare.
  destruct a as [sa|sa| |sa ma ea], b as [sb|sb| |sb mb eb],
    c as [sc|sc| |sc mc ec];
    try destruct sa; try destruct sb; try destruct sc; try done.
  all: unfold Pos.compare_cont; fold Pos.compare_cont.
  all: change (Pos.compare_cont Eq) with Pos.compare.
  all: destruct (Z.compare_spec ea eb); try done;
       destruct (Z.compare_spec eb ec); try done;
       destruct (Z.compare_spec ea ec); try lia; try done; subst.
  all: destruct (Pos.compare_spec ma mb); try done;
       destruct (Pos.compare_spec mb mc); try done;
       destruct (Pos.compare_spec ma mc); try lia; try done.
Qed.

Lemma float_leb_trans x y z :
  PrimFloat.leb x y = true -> PrimFloat.leb y z = true -> PrimFloat.leb x z = true.
Proof. rewrite !FloatAxioms.leb_spec. apply SFleb_trans. Qed.

(** ** More on the steps *)

Lemma find_absent_Some names (l : list string) c :
  List.find (fun c => negb (name_in names c)) l = Some c -> c ∈ l /\ c ∉ names.
Proof.
  intros H. apply find_some in H as [Hin Hc].
  split; [by apply list_elem_of_In|].
  intros Hn. apply name_in_spec in Hn. by rewrite Hn in Hc.
Qed.

Lemma drop_cases df labels :
  match drop df labels with
  | Ok df' =>
      (forall c, c ∈ labels -> c ∈ column_names df)
      /\ df' = {| index := index df;
                  columns := List.filter (fun cv => negb (name_in labels cv.1))
                               (columns df) |}
  | Raise e => exists c, e = KeyError c /\ c ∈ labels /\ c ∉ column_names df
  end.
Proof.
  unfold drop.
  destruct (List.find _ labels) as [c|] eqn:E.
  - exists c. split; [done|]. by apply find_absent_Some.
  - split; [by apply find_absent_None | done].
Qed.

Section Steps2.
Context {G : Type} `{!RandomState G} `{!Sklearn G}.

Lemma transform_fitted_run (s : ShuffleFeatures G) h g X df d :
  h !! X = Some (ODataFrame df) ->
  features_performance_drifts_ s = Some d ->
  exists h' r,
    h ⊆ h'
    /\ transform X (Build_world s h g) = (r, Build_world s h' g)
    /\ match drop df (columns_to_drop s d) with
       | Ok df' =>
           exists l, r = Ok l /\ h !! l = None
                     /\ h' !! l = Some (ODataFrame df')
       | Raise e => r = Raise e
       end.
Proof.
  intros HX Hd.
  destruct (transform_run s h g X df HX) as (h' & r & Hsub & Hrun & Hres).
  unfold transform_values in Hres. rewrite Hd in Hres. by exists h', r.
Qed.

End Steps2.

(** X2.  For a fitted selector and a frame [X], [transform] returns if and
    only if every feature it is to drop is a column of [X]; a fitted
    feature that is kept may be missing from [X].  Otherwise it raises the
    [KeyError] of [drop] for a feature to drop that [X] lacks.  Either way
    the selector is left as it was. *)
Theorem transform_needs_the_dropped_columns {G : Type} `{!RandomState G}
    `{!Sklearn G} (w : world G) (X : loc) (df : DataFrame)
    (d : list (string * float)) :
  heap w !! X = Some (ODataFrame df) ->
  features_performance_drifts_ (self w) = Some d ->
  let to_drop := columns_to_drop (self w) d in
  (is_Ok (transform X w).1 = true
   <-> forall f, f ∈ to_drop -> f ∈ column_names df)
  /\ (is_Ok (transform X w).1 = false ->
      exists c, (transform X w).1 = Raise (KeyError c)
                /\ c ∈ to_drop /\ c ∉ column_names df)
  /\ self (transform X w).2 = self w.
Proof.
  intros HX Hd to_drop. destruct w as [s h g]. simpl in *. subst to_drop.
  destruct (transform_fitted_run s h g X df d HX Hd) as (h' & r & _ & -> & Hr).
  simpl. pose proof (drop_cases df (columns_to_drop s d)) as Hc.
  destruct (drop df (columns_to_drop s d)) as [df'|e].
  - destruct Hr as (l & -> & _). destruct Hc as [Hall _]. simpl.
    split; [done|]. split; [discriminate | done].
  - subst r. destruct Hc as (c & -> & Hin & Hnot). simpl.
    split; [|split; [|done]].
    + split; [discriminate|]. intros Hall. destruct Hnot. by apply Hall.
    + intros _. by exists c.
Qed.

Lemma transform_needs_the_dropped_columns_witness :
  heap Toy.fitted_ab !! 1%positive = Some (ODataFrame Toy.frame_ab)
  /\ is_Ok (transform 1%positive Toy.fitted_ab).1 = true.
Proof.
  assert (heap Toy.fitted_ab !! 1%positive = Some (ODataFrame Toy.frame_ab))
    as HX by (vm_compute; reflexivity).
  split; [exact HX|].
  assert (features_performance_drifts_ (self Toy.fitted_ab)
          = Some (default [] (features_performance_drifts_ (self Toy.fitted_ab))))
    as Hd by (vm_compute; reflexivity).
  apply (proj1 (transform_needs_the_dropped_columns Toy.fitted_ab 1%positive
                  Toy.frame_ab _ HX Hd)).
  intros f Hf. vm_compute in Hf. vm_compute.
  apply list_elem_of_further. exact Hf.
Defined.

Lemma List_filter_all {A} (f : A -> bool) (l : list A) :
  (forall x, x ∈ l -> f x = true) -> List.filter f l = l.
Proof.
  induction l as [|a l IH]; simpl; intros H; [done|].
  rewrite (H a) by apply list_elem_of_here. f_equal. apply IH.
  intros x Hx. apply H. by apply list_elem_of_further.
Qed.

Lemma List_filter_sublist_mono {A} (f g : A -> bool) (l : list A) :
  (forall x, f x = true -> g x = true) ->
  sublist (List.filter f l) (List.filter g l).
Proof.
  intros H. induction l as [|a l IH]; simpl; [constructor|].
  destruct (f a) eqn:E.
  - rewrite (H a E). by constructor.
  - destruct (g a); [by constructor | done].
Qed.

Lemma frame_eta (df : DataFrame) :
  {| index := index df; columns := columns df |} = df.
Proof. by destruct df. Qed.

Section Steps3.
Context {G : Type} `{!RandomState G} `{!Sklearn G}.

Lemma columns_to_drop_nan_drift (s : ShuffleFeatures G) d c :
  (forall drift, (c, drift) ∈ d -> PrimFloat.eqb drift drift = false) ->
  c ∉ columns_to_drop s d.
Proof.
  intros Hnan Hin. apply columns_to_drop_spec in Hin as (drift & Hd & Hle).
  specialize (Hnan drift Hd).
  destruct (regression s).
  - by rewrite float_leb_nan_r in Hle.
  - by rewrite float_leb_nan_l in Hle.
Qed.

Lemma columns_to_drop_nan_threshold (s : ShuffleFeatures G) d :
  PrimFloat.eqb (threshold s) (threshold s) = false ->
  columns_to_drop s d = [].
Proof.
  intros Hnan. apply elem_of_nil_inv. intros c Hin.
  apply columns_to_drop_spec in Hin as (drift & Hd & Hle).
  destruct (regression s).
  - by rewrite float_leb_nan_l in Hle.
  - by rewrite float_leb_nan_r in Hle.
Qed.

Lemma fit_values_with_threshold (s : ShuffleFeatures G) t df y g :
  fit_values (with_threshold s t) df y g
  = (let '(r, s', g') := fit_values s df y g in (r, with_threshold s' t, g')).
Proof.
  unfold fit_values. simpl.
  destruct (_find_all_variables df (features_to_shuffle s)) as [features|];
    [|reflexivity].
  rewrite (baseline_ext _ (with_features s features)) by reflexivity.
  destruct (baseline (with_features s features) df y g)
    as [[[model base]|] g1]; [|reflexivity].
  simpl.
  destruct (drifts_loop (regression s) model base df y features [] g1)
    as [[r d] g2]. reflexivity.
Qed.

(** What a successful [fit] leaves: the frame, the resolved features that
    are its columns, and a mapping whose keys they are. *)
Lemma fit_Ok_inv (w w' : world G) X y :
  fit X y w = (Ok tt, w') ->
  exists df features d h',
    heap w !! X = Some (ODataFrame df)
    /\ heap w ⊆ h'
    /\ _find_all_variables df (features_to_shuffle (self w)) = Ok features
    /\ w' = Build_world (with_drifts (with_features (self w) features) d) h'
              (rng w')
    /\ (forall f, f ∈ d.*1 <-> f ∈ features)
    /\ (forall f, f ∈ features -> f ∈ column_names df).
Proof.
  intros Hfit. destruct (fit_Ok_frame _ _ _ _ Hfit) as [df HX].
  destruct w as [s h g]. simpl in *.
  destruct (fit_run s h g X df y HX) as (h' & Hsub & Hrun).
  rewrite Hfit in Hrun.
  destruct (fit_values s df y g) as [[r s'] g'] eqn:Hv.
  injection Hrun as <- ->.
  apply fit_values_Ok_inv in Hv
    as (features & model & base & g1 & d & Hres & Hbase & Hloop & ->).
  exists df, features, d, h'. simpl.
  split; [done|]. split; [done|]. split; [done|]. split; [done|]. split.
  - intros f. rewrite (drifts_loop_keys _ _ _ _ _ _ _ _ _ _ Hloop f).
    rewrite elem_of_nil. tauto.
  - by apply find_all_variables_in with (v := features_to_shuffle s).
Qed.

End Steps3.

(** X3.  [transform] applied to its own output: when the first call
    dropped nothing, the second returns the same frame again; when it
    dropped something, the second raises [KeyError] for the first dropped
    feature, which the output no longer has. *)
Theorem transform_twice {G : Type} `{!RandomState G} `{!Sklearn G}
    (w w1 : world G) (X l : loc) (df : DataFrame) (d : list (string * float)) :
  heap w !! X = Some (ODataFrame df) ->
  features_performance_drifts_ (self w) = Some d ->
  transform X w = (Ok l, w1) ->
  match columns_to_drop (self w) d with
  | [] =>
      heap w1 !! l = Some (ODataFrame df)
      /\ exists l2 w2, transform l w1 = (Ok l2, w2)
                       /\ heap w2 !! l2 = Some (ODataFrame df)
  | c :: _ => (transform l w1).1 = Raise (KeyError c)
  end.
Proof.
  intros HX Hd Htr. destruct w as [s h g]. simpl in *.
  destruct (transform_fitted_run s h g X df d HX Hd) as (h' & r & _ & Hrun & Hr).
  rewrite Htr in Hrun. injection Hrun as <- ->.
  pose proof (drop_cases df (columns_to_drop s d)) as Hc.
  destruct (drop df (columns_to_drop s d)) as [df'|e];
    [|discriminate].
  destruct Hr as (l' & [= <-] & _ & Hl). destruct Hc as [Hall ->].
  destruct (transform_fitted_run s h' g l _ d Hl Hd) as (h2 & r2 & _ & Hrun2 & Hr2).
  rewrite Hrun2. simpl.
  destruct (columns_to_drop s d) as [|c rest] eqn:Hdrop.
  - rewrite List_filter_all, frame_eta in * by done.
    split; [done|].
    unfold drop in Hr2. simpl in Hr2.
    rewrite List_filter_all, frame_eta in Hr2 by done.
    destruct Hr2 as (l2 & -> & _ & Hl2). by exists l2, (Build_world s h2 g).
  - unfold drop in Hr2. cbn [List.find] in Hr2.
    assert (name_in (column_names
                       {| index := index df;
                          columns := List.filter
                            (fun cv => negb (name_in (c :: rest) cv.1))
                            (columns df) |}) c = false) as Hout.
    { apply not_true_is_false. rewrite name_in_spec.
      unfold column_names. simpl. rewrite list_elem_of_fmap.
      intros ([c' v] & -> & Hin). apply list_elem_of_In, filter_In in Hin as [_ Hin].
      simpl in Hin. by rewrite String.eqb_refl in Hin. }
    rewrite Hout in Hr2. simpl in Hr2. by subst.
Qed.

Lemma transform_twice_witness :
  heap Toy.fitted_ab !! 1%positive = Some (ODataFrame Toy.frame_ab)
  /\ exists l, (transform 1%positive Toy.fitted_ab).1 = Ok l
     /\ (transform l (transform 1%positive Toy.fitted_ab).2).1
        = Raise (KeyError "b").
Proof.
  assert (heap Toy.fitted_ab !! 1%positive = Some (ODataFrame Toy.frame_ab))
    as HX by (vm_compute; reflexivity).
  split; [exact HX|].
  assert (features_performance_drifts_ (self Toy.fitted_ab)
          = Some (default [] (features_performance_drifts_ (self Toy.fitted_ab))))
    as Hd by (vm_compute; reflexivity).
  assert (columns_to_drop (self Toy.fitted_ab)
            (default [] (features_performance_drifts_ (self Toy.fitted_ab)))
          = ["b"%string]) as Hdrop by (vm_compute; reflexivity).
  assert (is_Ok (transform 1%positive Toy.fitted_ab).1 = true) as Hok
    by (vm_compute; reflexivity).
  destruct (transform 1%positive Toy.fitted_ab) as [[l|e] w1] eqn:Htr;
    [|discriminate Hok].
  exists l. split; [reflexivity|].
  pose proof (transform_twice Toy.fitted_ab w1 1%positive l Toy.frame_ab _
                HX Hd Htr) as H.
  rewrite Hdrop in H. exact H.
Defined.

(** X4.  Once [fit] has returned on [X], [transform] on the same [X]
    returns: it yields a new frame with the rows of [X] and a sublist of
    its columns, and every column of [X] that is not among the resolved
    features is still there. *)
Theorem transform_after_fit_succeeds {G : Type} `{!RandomState G}
    `{!Sklearn G} (w w1 : world G) (X : loc) (y : list float) :
  fit X y w = (Ok tt, w1) ->
  exists df features l w2 df',
    heap w !! X = Some (ODataFrame df)
    /\ features_to_shuffle (self w1) = Some features
    /\ transform X w1 = (Ok l, w2)
    /\ heap w1 !! l = None
    /\ heap w2 !! l = Some (ODataFrame df')
    /\ index df' = index df
    /\ sublist (columns df') (columns df)
    /\ (forall c vals,
          (c, vals) ∈ columns df -> c ∉ features -> (c, vals) ∈ columns df').
Proof.
  intros Hfit.
  destruct (fit_Ok_inv _ _ _ _ Hfit)
    as (df & features & d & h' & HX & Hsub & _ & -> & Hkeys & Hcols).
  destruct (transform_frame_Ok (with_drifts (with_features (self w) features) d)
              h' (rng w1) X df d) as (h2 & l & _ & Htr & Hfresh & Hl).
  - by eapply lookup_weaken.
  - done.
  - intros f Hf. by apply Hcols, Hkeys.
  - eexists df, features, l, _, _. split; [done|]. split; [done|].
    split; [exact Htr|]. split; [done|]. split; [exact Hl|].
    split; [done|]. split; [apply List_filter_sublist|].
    intros c vals Hin Hnot. cbn [columns].
    apply list_elem_of_In, filter_In. split; [by apply list_elem_of_In|].
    cbn [fst]. apply negb_true_iff, not_true_is_false.
    rewrite name_in_spec, columns_to_drop_spec.
    intros (drift & Hd & _). apply Hnot, Hkeys.
    apply list_elem_of_fmap. by exists (c, drift).
Qed.

Lemma transform_after_fit_succeeds_witness :
  fit 1%positive Toy.target_ab (Toy.world_ab (Toy.selector true NoVariables None))
  = (Ok tt, Toy.fitted_ab)
  /\ exists l w2, transform 1%positive Toy.fitted_ab = (Ok l, w2).
Proof.
  assert (fit 1%positive Toy.target_ab
            (Toy.world_ab (Toy.selector true NoVariables None))
          = (Ok tt, Toy.fitted_ab)) as Hfit by (vm_compute; reflexivity).
  split; [exact Hfit|].
  destruct (transform_after_fit_succeeds _ _ _ _ Hfit)
    as (df & features & l & w2 & df' & _ & _ & Htr & _).
  exists l, w2. exact Htr.
Defined.

(** X8.  A feature whose recorded drift is NaN is kept by [transform],
    in either mode, and with a NaN threshold every column is kept: the
    comparisons of lines 214 and 216 are false on NaN. *)
Theorem nan_drift_is_kept {G : Type} `{!RandomState G} `{!Sklearn G}
    (w w1 : world G) (X l : loc) (df : DataFrame)
    (d : list (string * float)) :
  heap w !! X = Some (ODataFrame df) ->
  features_performance_drifts_ (self w) = Some d ->
  transform X w = (Ok l, w1) ->
  exists df',
    heap w1 !! l = Some (ODataFrame df')
    /\ (forall c vals,
          (c, vals) ∈ columns df ->
          (forall drift, (c, drift) ∈ d -> PrimFloat.eqb drift drift = false) ->
          (c, vals) ∈ columns df')
    /\ (PrimFloat.eqb (threshold (self w)) (threshold (self w)) = false ->
        columns df' = columns df).
Proof.
  intros HX Hd Htr. destruct w as [s h g]. simpl in *.
  destruct (transform_fitted_run s h g X df d HX Hd) as (h' & r & _ & Hrun & Hr).
  rewrite Htr in Hrun. injection Hrun as <- ->.
  pose proof (drop_cases df (columns_to_drop s d)) as Hc.
  destruct (drop df (columns_to_drop s d)) as [out|e]; [|discriminate].
  destruct Hr as (l' & [= <-] & _ & Hl'). destruct Hc as [_ ->].
  eexists. split; [exact Hl'|]. simpl. split.
  - intros c vals Hin Hnan. apply list_elem_of_In, filter_In.
    split; [by apply list_elem_of_In|]. simpl.
    apply negb_true_iff, not_true_is_false. rewrite name_in_spec.
    by apply columns_to_drop_nan_drift.
  - intros Hnan. rewrite (columns_to_drop_nan_threshold s d Hnan).
    by apply List_filter_all.
Qed.

Lemma nan_drift_is_kept_witness :
  let w := Build_world
             (with_drifts (with_threshold (Toy.selector false NoVariables None) nan)
                [("a"%string, 1%float); ("b"%string, nan)])
             (heap (Toy.world_ab (Toy.selector false NoVariables None))) 42%N in
  heap w !! 1%positive = Some (ODataFrame Toy.frame_ab)
  /\ exists l df', (transform 1%positive w).1 = Ok l
       /\ heap (transform 1%positive w).2 !! l = Some (ODataFrame df')
       /\ columns df' = columns Toy.frame_ab.
Proof.
  set (w := Build_world
             (with_drifts (with_threshold (Toy.selector false NoVariables None) nan)
                [("a"%string, 1%float); ("b"%string, nan)])
             (heap (Toy.world_ab (Toy.selector false NoVariables None))) 42%N).
  assert (heap w !! 1%positive = Some (ODataFrame Toy.frame_ab)) as HX
    by (vm_compute; reflexivity).
  split; [exact HX|].
  assert (is_Ok (transform 1%positive w).1 = true) as Hok
    by (vm_compute; reflexivity).
  destruct (transform 1%positive w) as [[l|e] w1] eqn:Htr; [|discriminate Hok].
  destruct (nan_drift_is_kept w w1 1%positive l Toy.frame_ab _ HX eq_refl Htr)
    as (df' & Hl & _ & Hnan).
  exists l, df'. split; [reflexivity|]. split; [exact Hl|].
  apply Hnan. reflexivity.
Defined.

Section Steps5.
Context {G : Type} `{!RandomState G} `{!Sklearn G}.

Lemma columns_to_drop_threshold (s : ShuffleFeatures G) d t1 t2 f :
  PrimFloat.leb t1 t2 = true ->
  f ∈ columns_to_drop (with_threshold s (if regression s then t2 else t1)) d ->
  f ∈ columns_to_drop (with_threshold s (if regression s then t1 else t2)) d.
Proof.
  intros Hle. rewrite !columns_to_drop_spec. simpl.
  intros (drift & Hin & Hc). exists drift. split; [done|].
  destruct (regression s); by eapply float_leb_trans.
Qed.

(** [fit] writes two attributes only: the parameters other than
    [features_to_shuffle] are those of the selector it started from. *)
Lemma fit_values_parameters (s : ShuffleFeatures G) df y g :
  let s' := (fit_values s df y g).1.2 in
  estimator s' = estimator s /\ scoring s' = scoring s
  /\ threshold s' = threshold s /\ regression s' = regression s
  /\ cv s' = cv s.
Proof.
  unfold fit_values.
  destruct (_find_all_variables df (features_to_shuffle s)) as [features|];
    [|done].
  destruct (baseline (with_features s features) df y g)
    as [[[model base]|] g1]; [|done].
  simpl.
  destruct (drifts_loop (regression s) model base df y features [] g1)
    as [[r d] g2]. done.
Qed.

End Steps5.

(** X9.  The threshold is monotone.  With the same drifts, in regression
    mode the columns kept under the lower threshold are among those kept
    under the higher one ([drift >= threshold] drops fewer features as the
    threshold rises); in classification mode it is the other way round. *)
Theorem raising_the_threshold {G : Type} `{!RandomState G} `{!Sklearn G}
    (s : ShuffleFeatures G) (h : gmap loc object) (g : G) (X : loc)
    (df : DataFrame) (d : list (string * float)) (t1 t2 : float) :
  h !! X = Some (ODataFrame df) ->
  features_performance_drifts_ s = Some d ->
  (forall f, f ∈ d.*1 -> f ∈ column_names df) ->
  PrimFloat.leb t1 t2 = true ->
  exists l1 w1 out1 l2 w2 out2,
    transform X (Build_world (with_threshold s t1) h g) = (Ok l1, w1)
    /\ heap w1 !! l1 = Some (ODataFrame out1)
    /\ transform X (Build_world (with_threshold s t2) h g) = (Ok l2, w2)
    /\ heap w2 !! l2 = Some (ODataFrame out2)
    /\ if regression s then sublist (columns out1) (columns out2)
       else sublist (columns out2) (columns out1).
Proof.
  intros HX Hd Hcols Hle.
  destruct (transform_frame_Ok (with_threshold s t1) h g X df d HX Hd Hcols)
    as (h1 & l1 & _ & Htr1 & _ & Hl1).
  destruct (transform_frame_Ok (with_threshold s t2) h g X df d HX Hd Hcols)
    as (h2 & l2 & _ & Htr2 & _ & Hl2).
  eexists l1, _, _, l2, _, _.
  split; [exact Htr1|]. split; [exact Hl1|].
  split; [exact Htr2|]. split; [exact Hl2|]. simpl.
  pose proof (columns_to_drop_threshold s d t1 t2) as Hmono.
  destruct (regression s); apply List_filter_sublist_mono; intros cv Hcv.
  - apply negb_true_iff, not_true_is_false. apply negb_true_iff in Hcv.
    rewrite name_in_spec. intros Hin. apply Hmono in Hin; [|done].
    apply name_in_spec in Hin. congruence.
  - apply negb_true_iff, not_true_is_false. apply negb_true_iff in Hcv.
    rewrite name_in_spec. intros Hin. apply Hmono in Hin; [|done].
    apply name_in_spec in Hin. congruence.
Qed.

Lemma raising_the_threshold_witness :
  heap Toy.fitted_ab !! 1%positive = Some (ODataFrame Toy.frame_ab)
  /\ PrimFloat.leb (-3)%float 0%float = true
  /\ exists l1 w1 out1 l2 w2 out2,
       transform 1%positive
         (Build_world (with_threshold (self Toy.fitted_ab) (-3)%float)
            (heap Toy.fitted_ab) 42%N) = (Ok l1, w1)
       /\ heap w1 !! l1 = Some (ODataFrame out1)
       /\ transform 1%positive
            (Build_world (with_threshold (self Toy.fitted_ab) 0%float)
               (heap Toy.fitted_ab) 42%N) = (Ok l2, w2)
       /\ heap w2 !! l2 = Some (ODataFrame out2)
       /\ sublist (columns out1) (columns out2).
Proof.
  assert (heap Toy.fitted_ab !! 1%positive = Some (ODataFrame Toy.frame_ab))
    as HX by (vm_compute; reflexivity).
  split; [exact HX|]. split; [reflexivity|].
  assert (features_performance_drifts_ (self Toy.fitted_ab)
          = Some (default [] (features_performance_drifts_ (self Toy.fitted_ab))))
    as Hd by (vm_compute; reflexivity).
  apply (raising_the_threshold (self Toy.fitted_ab) (heap Toy.fitted_ab) 42%N
           1%positive Toy.frame_ab _ (-3)%float 0%float HX Hd).
  - intros f Hf. vm_compute in Hf. vm_compute. exact Hf.
  - reflexivity.
Defined.

(** X10.  [fit] does not read the threshold and does not change it:
    two selectors that differ in the threshold only get, from the same
    inputs and random state, the same outcome, the same resolved features,
    the same drift mapping and the same random state. *)
Theorem threshold_does_not_affect_fit {G : Type} `{!RandomState G}
    `{!Sklearn G} (s : ShuffleFeatures G) (t : float) (h : gmap loc object)
    (g : G) (X : loc) (y : list float) :
  let o1 := fit X y (Build_world s h g) in
  let o2 := fit X y (Build_world (with_threshold s t) h g) in
  o1.1 = o2.1
  /\ features_to_shuffle (self o1.2) = features_to_shuffle (self o2.2)
  /\ features_performance_drifts_ (self o1.2)
     = features_performance_drifts_ (self o2.2)
  /\ rng o1.2 = rng o2.2
  /\ threshold (self o1.2) = threshold s
  /\ threshold (self o2.2) = t.
Proof.
  intros o1 o2. subst o1 o2.
  destruct (h !! X) as [[df|]|] eqn:E.
  - destruct (fit_run s h g X df y E) as (h1 & _ & ->).
    destruct (fit_run (with_threshold s t) h g X df y E) as (h2 & _ & ->).
    rewrite fit_values_with_threshold.
    pose proof (fit_values_parameters s df y g) as (_ & _ & Ht & _).
    destruct (fit_values s df y g) as [[r s'] g']. by simpl in *.
  - rewrite !fit_not_frame by (intros df; simpl; rewrite E; discriminate).
    done.
  - rewrite !fit_not_frame by (intros df; simpl; rewrite E; discriminate).
    done.
Qed.

Section Steps6.
Context {G : Type} `{!RandomState G} `{!Sklearn G}.

(** A loop that raises stopped at one feature: it went through the
    features before it, and measuring that one raised. *)
Lemma drifts_loop_Raise r model base df y features :
  forall d g e d' g',
    drifts_loop r model base df y features d g = (Raise e, d', g') ->
    exists done f rest g_f,
      features = done ++ f :: rest
      /\ drifts_loop r model base df y done d g = (Ok tt, d', g_f)
      /\ feature_drift r model base df y f g_f = (Raise e, g').
Proof.
  induction features as [|a rest IH]; intros d g e d' g'; simpl; [discriminate|].
  destruct (feature_drift r model base df y a g) as [[drift|e0] g1] eqn:Ha.
  - intros Hloop.
    destruct (IH _ _ _ _ _ Hloop) as (done & f & rest' & g_f & -> & Hdone & Hf).
    exists (a :: done), f, rest', g_f. split; [done|]. split; [|done].
    simpl. by rewrite Ha.
  - intros [= <- <- <-]. by exists [], a, rest, g.
Qed.

Lemma feature_drift_Raise r model base df y f g e g' :
  f ∈ column_names df ->
  feature_drift r model base df y f g = (Raise e, g') ->
  exists df_f, shuffled_frame df f g = (Ok df_f, g')
               /\ performance r model df_f y = Raise e.
Proof.
  intros Hf. unfold feature_drift, shuffled_frame.
  destruct (getitem_Ok df f Hf) as [col ->].
  destruct (sample_frac1 col g) as [sampled g1].
  destruct (performance r model _ y) as [p|e0] eqn:Hp; [discriminate|].
  intros [= <- <-]. eauto.
Qed.

End Steps6.

(** X5.  A [fit] that raises inside the loop has stopped at one feature
    [f]: the features are resolved and the model is trained, the mapping is
    the one the loop built over the features listed before [f] (its keys
    are exactly those features, each once), and the error is the one that
    the trained model, or the metric, raised on the frame with [f] shuffled
    from the random state the loop had reached. *)
Theorem interrupted_fit_keeps_a_prefix {G : Type} `{!RandomState G}
    `{!Sklearn G} (w w' : world G) (X : loc) (y : list float)
    (df : DataFrame) (e : exn) :
  heap w !! X = Some (ODataFrame df) ->
  fit_reaches_loop (self w) df y (rng w) = true ->
  fit X y w = (Raise e, w') ->
  exists done f rest model base g1 d g_f df_f,
    _find_all_variables df (features_to_shuffle (self w))
    = Ok (done ++ f :: rest)
    /\ features_to_shuffle (self w') = Some (done ++ f :: rest)
    /\ baseline (self w) df y (rng w) = (Ok (model, base), g1)
    /\ drifts_loop (regression (self w)) model base df y done [] g1
       = (Ok tt, d, g_f)
    /\ features_performance_drifts_ (self w') = Some d
    /\ (forall k, k ∈ d.*1 <-> k ∈ done)
    /\ NoDup d.*1
    /\ shuffled_frame df f g_f = (Ok df_f, rng w')
    /\ performance (regression (self w)) model df_f y = Raise e.
Proof.
  intros HX Hreach Hfit. destruct w as [s h g]. simpl in *.
  destruct (fit_run s h g X df y HX) as (h' & _ & Hrun).
  rewrite Hfit in Hrun. unfold fit_reaches_loop in Hreach.
  unfold fit_values in Hrun.
  destruct (_find_all_variables df (features_to_shuffle s)) as [features|] eqn:Hres;
    [|discriminate].
  rewrite (baseline_ext _ s) in Hrun by done.
  destruct (baseline s df y g) as [[[model base]|] g1] eqn:Hbase;
    [|by rewrite (baseline_ext _ s), Hbase in Hreach].
  simpl in Hrun.
  destruct (drifts_loop (regression s) model base df y features [] g1)
    as [[r d] g2] eqn:Hloop.
  injection Hrun as <- ->.
  apply drifts_loop_Raise in Hloop
    as (done & f & rest & g_f & -> & Hdone & Hf).
  apply feature_drift_Raise in Hf as (df_f & Hsh & Hperf).
  2:{ apply (find_all_variables_in _ _ _ Hres).
      apply elem_of_app. right. apply list_elem_of_here. }
  pose proof (drifts_loop_NoDup (regression s) model base df y done [] g1)
    as Hnd. rewrite Hdone in Hnd. simpl in Hnd.
  exists done, f, rest, model, base, g1, d, g_f, df_f. simpl.
  split; [done|]. split; [done|]. split; [done|]. split; [done|].
  split; [done|]. split.
  { intros k. rewrite (drifts_loop_keys _ _ _ _ _ _ _ _ _ _ Hdone k).
    rewrite elem_of_nil. tauto. }
  split; [apply Hnd; constructor|]. done.
Qed.

Lemma interrupted_fit_keeps_a_prefix_witness :
  let w := Toy.start (Toy.selector true NoVariables None)
             [ODataFrame Toy.frame_ab_from_1] 42 in
  heap w !! 1%positive = Some (ODataFrame Toy.frame_ab_from_1)
  /\ fit_reaches_loop (self w) Toy.frame_ab_from_1 Toy.target_ab 42%N = true
  /\ (fit 1%positive Toy.target_ab w).1 = Raise (ValueError "Input contains NaN")
  /\ exists model df_f,
       performance true model df_f Toy.target_ab
       = Raise (ValueError "Input contains NaN").
Proof.
  set (w := Toy.start (Toy.selector true NoVariables None)
              [ODataFrame Toy.frame_ab_from_1] 42).
  assert (heap w !! 1%positive = Some (ODataFrame Toy.frame_ab_from_1)) as HX
    by (vm_compute; reflexivity).
  assert (fit_reaches_loop (self w) Toy.frame_ab_from_1 Toy.target_ab (rng w)
          = true) as Hreach by (vm_compute; reflexivity).
  assert (fit 1%positive Toy.target_ab w
          = (Raise (ValueError "Input contains NaN"),
             (fit 1%positive Toy.target_ab w).2)) as Hfit
    by (vm_compute; reflexivity).
  split; [exact HX|]. split; [exact Hreach|].
  split; [rewrite Hfit; reflexivity|].
  destruct (interrupted_fit_keeps_a_prefix w _ 1%positive Toy.target_ab
              Toy.frame_ab_from_1 _ HX Hreach Hfit)
    as (done & f & rest & model & base & g1 & d & g_f & df_f
        & _ & _ & _ & _ & _ & _ & _ & _ & Hperf).
  exists model, df_f. exact Hperf.
Defined.

(** X6.  A [fit] that raises before the loop (validation of [X],
    resolution of the features, training or scoring of the model) leaves
    [features_performance_drifts_] as it was before the call, so a selector
    fitted earlier keeps its old mapping.  When the validation or the
    resolution fails nothing at all changes; when the features resolve,
    [features_to_shuffle] has already been overwritten with them. *)
Theorem fit_failure_before_the_loop {G : Type} `{!RandomState G}
    `{!Sklearn G} (w : world G) (X : loc) (y : list float) :
  (forall df, heap w !! X = Some (ODataFrame df) ->
              fit_reaches_loop (self w) df y (rng w) = false) ->
  let o := fit X y w in
  is_Ok o.1 = false
  /\ features_performance_drifts_ (self o.2)
     = features_performance_drifts_ (self w)
  /\ ((forall df, heap w !! X = Some (ODataFrame df) ->
         is_Ok (_find_all_variables df (features_to_shuffle (self w))) = false) ->
      self o.2 = self w /\ rng o.2 = rng w)
  /\ (forall df features,
        heap w !! X = Some (ODataFrame df) ->
        _find_all_variables df (features_to_shuffle (self w)) = Ok features ->
        features_to_shuffle (self o.2) = Some features).
Proof.
  intros Hstop o. subst o. destruct w as [s h g]. simpl in *.
  destruct (h !! X) as [[df|]|] eqn:E.
  - specialize (Hstop df eq_refl). unfold fit_reaches_loop in Hstop.
    destruct (fit_run s h g X df y E) as (h' & _ & ->).
    unfold fit_values.
    destruct (_find_all_variables df (features_to_shuffle s))
      as [features|] eqn:Hres.
    + destruct (baseline (with_features s features) df y g)
        as [[[model base]|] g1]; [discriminate|].
      simpl. split; [done|]. split; [done|]. split.
      * intros H. specialize (H df eq_refl). by rewrite Hres in H.
      * intros ? ? [= <-] Hres'. rewrite Hres in Hres'. by injection Hres' as <-.
    + simpl. split; [done|]. split; [done|]. split; [done|].
      intros ? ? [= <-] Hres'. by rewrite Hres in Hres'.
  - rewrite fit_not_frame by (intros df; simpl; rewrite E; discriminate).
    simpl. split; [done|]. split; [done|]. split; [done|]. by intros ? ? [=].
  - rewrite fit_not_frame by (intros df; simpl; rewrite E; discriminate).
    simpl. split; [done|]. split; [done|]. split; [done|]. by intros ? ? [=].
Qed.

Lemma fit_failure_before_the_loop_witness :
  let w := Build_world
             (with_features (self Toy.fitted_ab) ["a"; "zz"]%string)
             (heap Toy.fitted_ab) 42%N in
  is_Ok (fit 1%positive Toy.target_ab w).1 = false
  /\ features_performance_drifts_ (self (fit 1%positive Toy.target_ab w).2)
     = features_performance_drifts_ (self Toy.fitted_ab).
Proof.
  set (w := Build_world
              (with_features (self Toy.fitted_ab) ["a"; "zz"]%string)
              (heap Toy.fitted_ab) 42%N).
  assert (heap w !! 1%positive = Some (ODataFrame Toy.frame_ab)) as HX
    by (vm_compute; reflexivity).
  destruct (fit_failure_before_the_loop w 1%positive Toy.target_ab)
    as (H1 & H2 & _).
  - intros df Hdf. pose proof (eq_trans (eq_sym Hdf) HX) as Heq.
    injection Heq as ->. vm_compute; reflexivity.
  - split; [exact H1 | exact H2].
Defined.

Lemma find_all_variables_named df (names : list string) :
  names <> [] ->
  match _find_all_variables df (Some names) with
  | Ok features => features = names /\ forall c, c ∈ names -> c ∈ column_names df
  | Raise _ => exists c, c ∈ names /\ c ∉ column_names df
  end.
Proof.
  intros Hne. unfold _find_all_variables.
  destruct names as [|a l]; [done|].
  destruct (List.find _ (a :: l)) as [c|] eqn:E.
  - exists c. by apply find_absent_Some.
  - split; [done|]. by apply find_absent_None.
Qed.

(** X7.  [fit] overwrites the parameter [features_to_shuffle] (line 113):
    a selector built without features holds, after its first [fit], the
    columns of that frame.  A later [fit] on another frame uses those
    columns: it fails if the new frame lacks one of them, and when it
    returns the keys of the mapping are the columns of the first frame,
    whatever other columns the new frame has. *)
Theorem first_fit_pins_the_features {G : Type} `{!RandomState G}
    `{!Sklearn G} (reg : pyval) (cv_arg : option pyval) (t : option float)
    (e : option (Estimator G)) (sc : option string) (s : ShuffleFeatures G)
    (h : gmap loc object) (g : G) (X : loc) (y : list float) (w1 : world G) :
  __init__ reg cv_arg t NoVariables e sc = Ok s ->
  fit X y (Build_world s h g) = (Ok tt, w1) ->
  exists df,
    h !! X = Some (ODataFrame df)
    /\ features_to_shuffle s = None
    /\ features_to_shuffle (self w1) = Some (column_names df)
    /\ forall (h2 : gmap loc object) (g2 : G) (X2 : loc) (y2 : list float)
              (df2 : DataFrame),
         h2 !! X2 = Some (ODataFrame df2) ->
         column_names df <> [] ->
         let o := fit X2 y2 (Build_world (self w1) h2 g2) in
         ((exists c, c ∈ column_names df /\ c ∉ column_names df2) ->
          is_Ok o.1 = false)
         /\ (o.1 = Ok tt ->
             exists d, features_to_shuffle (self o.2) = Some (column_names df)
                       /\ features_performance_drifts_ (self o.2) = Some d
                       /\ forall k, k ∈ d.*1 <-> k ∈ column_names df).
Proof.
  intros Hinit Hfit.
  assert (features_to_shuffle s = None) as Hnone.
  { unfold __init__ in Hinit.
    destruct (default (PyInt 3) cv_arg); try discriminate.
    destruct reg; try discriminate. by injection Hinit as <-. }
  destruct (fit_Ok_inv _ _ _ _ Hfit)
    as (df & features & d & h' & HX & _ & Hres & -> & _ & _).
  simpl in *. rewrite Hnone in Hres. injection Hres as <-.
  exists df. split; [done|]. split; [done|]. split; [done|].
  intros h2 g2 X2 y2 df2 HX2 Hne.
  set (s1 := with_drifts (with_features s (column_names df)) d).
  pose proof (find_all_variables_named df2 (column_names df) Hne) as Hnamed.
  split.
  - intros (c & Hc & Hnot).
    destruct (fit_run s1 h2 g2 X2 df2 y2 HX2) as (h2' & _ & ->).
    unfold fit_values. simpl.
    fold (_find_all_variables df2 (Some (column_names df))).
    destruct (_find_all_variables df2 (Some (column_names df))) as [fs|e2].
    + destruct Hnamed as [_ Hall]. destruct Hnot. by apply Hall.
    + done.
  - intros Hok.
    destruct (fit X2 y2 (Build_world s1 h2 g2)) as [r w2] eqn:Hfit2.
    simpl in Hok. subst r.
    destruct (fit_Ok_inv _ _ _ _ Hfit2)
      as (df2' & features2 & d2 & h2' & HX2' & _ & Hres2 & -> & Hkeys & _).
    cbn [self heap] in Hres2, HX2' |- *.
    rewrite HX2 in HX2'. injection HX2' as <-.
    unfold s1 in Hres2.
    cbn [features_to_shuffle with_drifts with_features] in Hres2.
    rewrite Hres2 in Hnamed. destruct Hnamed as [-> _].
    by exists d2.
Qed.

Lemma first_fit_pins_the_features_witness :
  __init__ (PyBool true) (Some (PyBool true)) None NoVariables None None
  = Ok (Toy.selector true NoVariables None)
  /\ fit 1%positive Toy.target_ab (Toy.world_ab (Toy.selector true NoVariables None))
     = (Ok tt, Toy.fitted_ab)
  /\ features_to_shuffle (self Toy.fitted_ab) = Some (column_names Toy.frame_ab).
Proof.
  assert (fit 1%positive Toy.target_ab
            (Toy.world_ab (Toy.selector true NoVariables None))
          = (Ok tt, Toy.fitted_ab)) as Hfit by (vm_compute; reflexivity).
  split; [reflexivity|]. split; [exact Hfit|].
  destruct (first_fit_pins_the_features
              (PyBool true) (Some (PyBool true)) None None None
              (Toy.selector true NoVariables None)
              (heap (Toy.world_ab (Toy.selector true NoVariables None)))
              42%N 1%positive Toy.target_ab Toy.fitted_ab eq_refl Hfit)
    as (df & HX & _ & Hf & _).
  assert (df = Toy.frame_ab) as ->
    by (vm_compute in HX; injection HX as <-; reflexivity).
  exact Hf.
Defined.

Lemma Series_at_None labels (vals : list float) l :
  l ∉ labels -> Series_at labels vals l = None.
Proof.
  revert vals. induction labels as [|l' labels IH]; intros vals Hl; [done|].
  destruct vals as [|v vals]; [done|]. simpl.
  destruct (Z.eqb_spec l' l) as [->|Hne].
  - destruct Hl. apply list_elem_of_here.
  - apply IH. intros Hin. apply Hl. by apply list_elem_of_further.
Qed.

Lemma elem_of_RangeIndex n l :
  l ∈ RangeIndex n <-> (0 <= l < Z.of_nat n)%Z.
Proof.
  unfold RangeIndex. rewrite list_elem_of_fmap. split.
  - intros (k & -> & Hk). apply elem_of_seq in Hk. lia.
  - intros Hl. exists (Z.to_nat l). split; [lia|]. apply elem_of_seq. lia.
Qed.

(** The value a series labelled [0 .. n-1] carries for a label. *)
Lemma Series_at_RangeIndex_Z (vals : list float) (l : Z) :
  Series_at (RangeIndex (length vals)) vals l
  = if ((0 <=? l) && (l <? Z.of_nat (length vals)))%Z
    then vals !! Z.to_nat l else None.
Proof.
  destruct ((0 <=? l) && (l <? Z.of_nat (length vals)))%Z eqn:E.
  - apply andb_true_iff in E as [H0 H1].
    apply Z.leb_le in H0. apply Z.ltb_lt in H1.
    rewrite <- (Z2Nat.id l) at 1 by done. apply Series_at_RangeIndex.
  - apply Series_at_None. rewrite elem_of_RangeIndex. intros [H0 H1].
    apply Z.leb_le in H0. apply Z.ltb_lt in H1. by rewrite H0, H1 in E.
Qed.

(** The cells of the shuffled column, row by row: the row labelled [l]
    receives position [l] of the shuffled values, or [nan] when there is no
    such position. *)
Lemma shuffled_frame_cells {G : Type} `{!RandomState G}
    (df : DataFrame) (f : string) (g : G) (df_f : DataFrame)
    (vals : list float) :
  assoc_lookup f (columns df) = Some vals ->
  (shuffled_frame df f g).1 = Ok df_f ->
  exists sampled new,
    sampled ≡ₚ vals
    /\ assoc_lookup f (columns df_f) = Some new
    /\ length new = length (index df)
    /\ forall i l,
         index df !! i = Some l ->
         new !! i
         = Some (if ((0 <=? l) && (l <? Z.of_nat (length vals)))%Z
                 then default nan (sampled !! Z.to_nat l) else nan).
Proof.
  intros Hvals Hsh.
  apply shuffled_frame_inv in Hsh as (vals' & Hvals' & ->).
  rewrite Hvals in Hvals'. injection Hvals' as <-.
  set (col := {| s_index := index df; s_values := vals |}).
  pose proof (sample_frac1_Permutation col g) as Hperm.
  pose proof (sample_frac1_length col g) as Hlen.
  destruct (sample_frac1 col g) as [[idx sampled] g']. simpl in *.
  exists sampled. eexists. split; [done|].
  split; [apply assoc_set_lookup|]. split.
  - unfold reindex. by rewrite length_fmap.
  - intros i l Hi. unfold reindex, reset_index_drop. simpl.
    rewrite list_lookup_fmap, Hi. simpl. f_equal.
    rewrite Series_at_RangeIndex_Z, Hlen.
    by destruct ((0 <=? l) && (l <? Z.of_nat (length vals)))%Z.
Qed.

Lemma assoc_set_same {A} k (v : A) d :
  assoc_lookup k d = Some v -> assoc_set k v d = d.
Proof.
  induction d as [|[k' v'] d IH]; simpl; [discriminate|].
  destruct (String.eqb_spec k' k) as [->|Hne].
  - by intros [= ->].
  - intros H. f_equal. by apply IH.
Qed.

Lemma reindex_reset_RangeIndex (s : Series) :
  reindex (reset_index_drop s) (RangeIndex (length (s_values s))) = s_values s.
Proof.
  unfold reindex, reset_index_drop, RangeIndex; simpl.
  rewrite <- list_fmap_compose.
  etrans; [|apply (lookup_all_positions nan (s_values s))].
  apply list_fmap_ext. intros i x _. unfold compose. f_equal.
  apply (Series_at_RangeIndex (s_values s) x).
Qed.

Section Steps8.
Context {G : Type} `{!RandomState G} `{!Sklearn G}.

(** The loop body leaves the shuffled copy in the store, at the address
    [X.copy()] was given, and nothing else changes there. *)
Lemma shuffle_feature_store (s : ShuffleFeatures G) h g X df y model base f df_f :
  h !! X = Some (ODataFrame df) ->
  (shuffled_frame df f g).1 = Ok df_f ->
  exists r s' g',
    shuffle_feature X y model base f (Build_world s h g)
    = (r, Build_world s' (<[fresh (dom h) := ODataFrame df_f]> h) g').
Proof.
  intros HX Hsh.
  unfold shuffle_feature, shuffled_frame in *.
  unfold bind at 1. rewrite (copy_run _ _ _ _ _ HX).
  set (l := fresh (dom h)).
  unfold bind at 1. rewrite (frame_of_run _ _ _ l df) by apply lookup_insert_eq.
  unfold bind at 1, lift at 1.
  destruct (getitem df f) as [col|e]; [|discriminate].
  unfold bind at 1, with_rng at 1. simpl.
  destruct (sample_frac1 col g) as [sampled g']. simpl in Hsh.
  injection Hsh as <-.
  unfold bind at 1, store at 1. simpl.
  rewrite insert_insert_eq.
  unfold bind at 1.
  rewrite (shuffled_model_performance_run _ _ _ _ l
             (setitem df f (reset_index_drop sampled))) by apply lookup_insert_eq.
  destruct (performance (regression s) model _ y); simpl; [|eauto].
  unfold record_drift, bind, get_self, set_self, raise. simpl.
  destruct (features_performance_drifts_ s); simpl; eauto.
Qed.

Lemma permutation_short n (g : G) : n <= 1 -> permutation n g = (seq 0 n, g).
Proof.
  intros H. unfold permutation. by replace (n - 1) with 0 by lia.
Qed.

(** With at most one row there is nothing to shuffle: the frame comes
    back as it is and the random state is not touched. *)
Lemma shuffled_frame_short df f (g : G) vals :
  length (index df) <= 1 ->
  index df = RangeIndex (length (index df)) ->
  assoc_lookup f (columns df) = Some vals ->
  length vals = length (index df) ->
  shuffled_frame df f g = (Ok df, g).
Proof.
  intros Hshort Hidx Hvals Hlen. unfold shuffled_frame, getitem.
  rewrite Hvals. unfold sample_frac1. cbn [s_values].
  rewrite permutation_short by lia.
  set (S := Series_take {| s_index := index df; s_values := vals |}
              (seq 0 (length vals))).
  assert (s_values S = vals) as Hs by apply lookup_all_positions.
  assert (reindex (reset_index_drop S) (index df) = vals) as Hre.
  { rewrite Hidx.
    replace (length (index df)) with (length (s_values S))
      by (rewrite Hs; done).
    by rewrite reindex_reset_RangeIndex. }
  f_equal. f_equal. unfold setitem. rewrite Hre.
  rewrite (assoc_set_same _ _ _ Hvals). apply frame_eta.
Qed.

End Steps8.

Section Steps9.
Context {G : Type} `{!RandomState G} `{!Sklearn G}.

Lemma drifts_loop_short r model base df y features :
  (forall f (g : G), f ∈ features -> shuffled_frame df f g = (Ok df, g)) ->
  forall d g d' g',
    drifts_loop r model base df y features d g = (Ok tt, d', g') ->
    g' = g
    /\ forall f v,
         assoc_lookup f d' = Some v ->
         assoc_lookup f d = Some v
         \/ exists p, performance r model df y = Ok p
                      /\ v = PrimFloat.sub base p.
Proof.
  induction features as [|a rest IH]; intros Hsh d g d' g'; simpl.
  - intros [= <- <-]. split; [done | auto].
  - unfold feature_drift. rewrite Hsh by apply list_elem_of_here.
    destruct (performance r model df y) as [p|] eqn:Hp; [|discriminate].
    intros Hloop. apply IH in Hloop as [-> Hvals].
    2:{ intros f g0 Hf. apply Hsh. by apply list_elem_of_further. }
    split; [done|]. intros f v Hv. apply Hvals in Hv as [Hv|Hv]; [|by right].
    destruct (decide (f = a)) as [->|Hne].
    + rewrite assoc_set_lookup in Hv. injection Hv as <-. right. by exists p.
    + rewrite assoc_set_lookup_ne in Hv by done. by left.
Qed.

End Steps9.

(** X11.  The body of the loop leaves [X] as it is and stores the
    shuffled copy in a new object with the same row labels.  There the row
    labelled [l] holds position [l] of the shuffled values when
    [0 <= l < n], and NaN otherwise: every cell is a value of the column
    or NaN, and the rows labelled outside [0 .. n-1] are the ones lost. *)
Theorem shuffled_copy_cells_by_label {G : Type} `{!RandomState G}
    `{!Sklearn G} (s : ShuffleFeatures G) (h : gmap loc object) (g : G)
    (X : loc) (df : DataFrame) (y : list float) (model : Model)
    (base : float) (f : string) (vals : list float) :
  h !! X = Some (ODataFrame df) ->
  assoc_lookup f (columns df) = Some vals ->
  let w' := (shuffle_feature X y model base f (Build_world s h g)).2 in
  exists df_f sampled new,
    heap w' !! fresh (dom h) = Some (ODataFrame df_f)
    /\ heap w' !! X = Some (ODataFrame df)
    /\ index df_f = index df
    /\ sampled ≡ₚ vals
    /\ assoc_lookup f (columns df_f) = Some new
    /\ length new = length (index df)
    /\ forall i l,
         index df !! i = Some l ->
         new !! i
         = Some (if ((0 <=? l) && (l <? Z.of_nat (length vals)))%Z
                 then default nan (sampled !! Z.to_nat l) else nan).
Proof.
  intros HX Hvals w'. subst w'.
  destruct (shuffled_frame df f g) as [[df_f|e] g1] eqn:Hsh.
  2:{ unfold shuffled_frame, getitem in Hsh. rewrite Hvals in Hsh.
      destruct (sample_frac1 _ g); discriminate. }
  assert ((shuffled_frame df f g).1 = Ok df_f) as Hsh1 by (by rewrite Hsh).
  destruct (shuffle_feature_store s h g X df y model base f df_f HX Hsh1)
    as (r & s' & g' & ->).
  destruct (shuffled_frame_cells df f g df_f vals Hvals Hsh1)
    as (sampled & new & Hperm & Hnew & Hlen & Hcells).
  exists df_f, sampled, new. simpl.
  split; [apply lookup_insert_eq|]. split.
  { rewrite lookup_insert_ne; [done|].
    intros Heq. rewrite <- Heq, fresh_lookup_None in HX. discriminate. }
  split; [|done].
  apply shuffled_frame_inv in Hsh1 as (? & _ & ->). done.
Qed.

Lemma shuffled_copy_cells_by_label_witness :
  let w := Toy.start (Toy.selector true NoVariables None)
             [ODataFrame Toy.frame_ab_from_1] 42 in
  heap w !! 1%positive = Some (ODataFrame Toy.frame_ab_from_1)
  /\ assoc_lookup "a" (columns Toy.frame_ab_from_1) = Some [1; 2; 3]%float
  /\ exists df_f new,
       heap (shuffle_feature 1%positive Toy.target_ab Toy.sum_model 0%float "a" w).2
         !! fresh (dom (heap w)) = Some (ODataFrame df_f)
       /\ assoc_lookup "a" (columns df_f) = Some new
       /\ new !! 2 = Some nan.
Proof.
  set (w := Toy.start (Toy.selector true NoVariables None)
              [ODataFrame Toy.frame_ab_from_1] 42).
  assert (heap w !! 1%positive = Some (ODataFrame Toy.frame_ab_from_1)) as HX
    by (vm_compute; reflexivity).
  split; [exact HX|]. split; [reflexivity|].
  destruct (shuffled_copy_cells_by_label (self w) (heap w) 42%N 1%positive
              Toy.frame_ab_from_1 Toy.target_ab Toy.sum_model 0%float "a"
              [1; 2; 3]%float HX eq_refl)
    as (df_f & sampled & new & Hl & _ & _ & _ & Hnew & _ & Hcells).
  exists df_f, new. split; [exact Hl|]. split; [exact Hnew|].
  apply (Hcells 2 3%Z). reflexivity.
Defined.

(** X12.  On a frame with at most one row (labelled 0) there is nothing
    to shuffle: the loop draws nothing from the random state, and every
    recorded drift is the baseline minus the performance of the model on
    the frame itself. *)
Theorem short_frame_has_nothing_to_shuffle {G : Type} `{!RandomState G}
    `{!Sklearn G} (w w' : world G) (X : loc) (y : list float)
    (df : DataFrame) :
  heap w !! X = Some (ODataFrame df) ->
  length (index df) <= 1 ->
  index df = RangeIndex (length (index df)) ->
  (forall c vals, (c, vals) ∈ columns df -> length vals = length (index df)) ->
  fit X y w = (Ok tt, w') ->
  exists d model base,
    features_performance_drifts_ (self w') = Some d
    /\ baseline (self w) df y (rng w) = (Ok (model, base), rng w')
    /\ forall f v,
         assoc_lookup f d = Some v ->
         exists p, performance (regression (self w)) model df y = Ok p
                   /\ v = PrimFloat.sub base p.
Proof.
  intros HX Hshort Hidx Hlen Hfit. destruct w as [s h g]. simpl in *.
  destruct (fit_run s h g X df y HX) as (h' & _ & Hrun).
  rewrite Hfit in Hrun.
  destruct (fit_values s df y g) as [[r s'] g'] eqn:Hv.
  injection Hrun as <- ->.
  apply fit_values_Ok_inv in Hv
    as (features & model & base & g1 & d & Hres & Hbase & Hloop & ->).
  rewrite (baseline_ext _ s) in Hbase by done.
  apply drifts_loop_short in Hloop as [-> Hvals].
  - exists d, model, base. simpl. split; [done|]. split; [done|].
    intros f v Hv. by destruct (Hvals f v Hv) as [Hn|Hp]; [discriminate|].
  - intros f g0 Hf.
    apply (find_all_variables_in _ _ _ Hres), assoc_lookup_names in Hf as [vals Hf].
    apply (shuffled_frame_short df f g0 vals); try done.
    by apply (Hlen f), assoc_lookup_elem.
Qed.

Lemma short_frame_has_nothing_to_shuffle_witness :
  let w := Toy.start (Toy.selector true NoVariables None)
             [ODataFrame Toy.frame_one] 42 in
  heap w !! 1%positive = Some (ODataFrame Toy.frame_one)
  /\ is_Ok (fit 1%positive [1]%float w).1 = true
  /\ exists d, features_performance_drifts_ (self (fit 1%positive [1]%float w).2)
               = Some d.
Proof.
  set (w := Toy.start (Toy.selector true NoVariables None)
              [ODataFrame Toy.frame_one] 42).
  assert (heap w !! 1%positive = Some (ODataFrame Toy.frame_one)) as HX
    by (vm_compute; reflexivity).
  assert (fit 1%positive [1]%float w = (Ok tt, (fit 1%positive [1]%float w).2))
    as Hfit by (vm_compute; reflexivity).
  split; [exact HX|]. split; [rewrite Hfit; reflexivity|].
  assert (length (index Toy.frame_one) <= 1) as Hshort by (simpl; lia).
  assert (index Toy.frame_one = RangeIndex (length (index Toy.frame_one)))
    as Hidx by reflexivity.
  assert (forall c vals, (c, vals) ∈ columns Toy.frame_one ->
                         length vals = length (index Toy.frame_one)) as Hlen.
  { intros c vals Hin. vm_compute in Hin.
    repeat (apply elem_of_cons in Hin as [[= -> ->]|Hin]; [reflexivity|]).
    by apply elem_of_nil in Hin. }
  destruct (short_frame_has_nothing_to_shuffle w (fit 1%positive [1]%float w).2
              1%positive [1]%float Toy.frame_one HX Hshort Hidx Hlen Hfit)
    as (d & _ & _ & Hd & _).
  exists d. exact Hd.
Defined.

